(** * CWSI / ETa calculator (ETa_IRT.py): shallow embedding and properties

    The numeric functions of [ETa_IRT.py] are embedded over the real
    numbers: a Python float is read as the real it denotes, a float
    literal such as [0.15] as the decimal it spells.  What Python does
    besides computing a number is kept explicit:

    - a division whose divisor is zero raises [ZeroDivisionError]
      (numpy scalars yield inf/nan there: "fails or is not finite");
    - [x ** 0.25] is the real fourth root when [0 <= x]; on a negative
      base Python leaves the reals (complex result, nan for numpy),
      which is the failure [NegativeBase];
    - [warnings.warn] appends a warning to a log that is threaded
      through every call;
    - indexing a row by a column it does not have raises [KeyError].
*)

From Stdlib Require Import Reals Lra Lia String List Bool.
Import ListNotations.
Open Scope R_scope.

(** ** Failures and warnings *)

Inductive error : Type :=
| ZeroDivisionError
| NegativeBase
| KeyError (col : string)
| ValueError.

(** The two messages of [fractional_veg_cover]; each names the value. *)
Inductive warning : Type :=
| FrLessThan0 (Fr : R)
| FrGreaterThan1 (Fr : R).

Definition warned_value (w : warning) : R :=
  match w with
  | FrLessThan0 v => v
  | FrGreaterThan1 v => v
  end.

Inductive result (A : Type) : Type :=
| Ok (a : A)
| Err (e : error).
Arguments Ok {A} a.
Arguments Err {A} e.

(** A computation: the warnings it emitted, and its value or the
    exception that ended it. *)
Definition M (A : Type) : Type := (list warning * result A)%type.

Definition ret {A} (a : A) : M A := ([], Ok a).
Definition raise {A} (e : error) : M A := ([], Err e).
Definition warn (w : warning) : M unit := ([w], Ok tt).

Definition bind {A B} (m : M A) (k : A -> M B) : M B :=
  match m with
  | (ws, Ok a) => let (ws', r) := k a in (ws ++ ws', r)
  | (ws, Err e) => (ws, Err e)
  end.

Notation "x <- m ;; k" := (bind m (fun x => k))
  (at level 61, m at next level, right associativity).
Notation "m ;;; k" := (bind m (fun _ => k))
  (at level 61, right associativity).

Definition warnings_of {A} (m : M A) : list warning := fst m.
Definition outcome {A} (m : M A) : result A := snd m.

(** Python's [/] on floats. *)
Definition pydiv (a b : R) : M R :=
  if Req_dec_T b 0 then raise ZeroDivisionError else ret (a / b).

(** Python's [x ** 0.25]. *)
Definition root4 (x : R) : R := sqrt (sqrt x).

Definition pow_quarter (x : R) : M R :=
  if Rlt_dec x 0 then raise NegativeBase else ret (root4 x).

(** ** The leaf stages *)

Definition calc_NDVI (Nir Red : R) : M R :=
  pydiv (Nir - Red) (Nir + Red).

Definition scale_NDVI (NDVI NDVI_max NDVI_min : R) : M R :=
  scaled_NDVI <- pydiv (NDVI - NDVI_min) (NDVI_max - NDVI_min) ;;
  ret scaled_NDVI.

Definition fractional_veg_cover (scaled_NDVI : R) : M R :=
  let Fr := scaled_NDVI ^ 2 in
  if Rlt_dec Fr 0 then
    warn (FrLessThan0 Fr) ;;; ret 0
  else if Rgt_dec Fr 1 then
    warn (FrGreaterThan1 Fr) ;;; ret 1
  else ret Fr.

Definition calc_target_emissivity (Fr veg_emissivity soil_emissivity : R) : M R :=
  let target_emissivity := Fr * veg_emissivity + (1 - Fr) * soil_emissivity in
  ret target_emissivity.

Definition adj_target_T (T_sensor target_emissivity T_background : R) : M R :=
  q <- pydiv (T_sensor ^ 4 - (1 - target_emissivity) * T_background ^ 4)
             target_emissivity ;;
  T_target <- pow_quarter q ;;
  ret T_target.

Definition calc_esat (T : R) : M R :=
  q <- pydiv (17.27 * T) (T + 237.3) ;;
  let esat := 0.6108 * exp q in
  ret esat.

Definition calc_ea (T RH : R) : M R :=
  esat <- calc_esat T ;;
  let ea := RH * esat / 100 in
  ret ea.

Definition calc_VPD (esat ea : R) : M R :=
  let VPD := esat - ea in
  ret VPD.

Definition calc_VPG (esat T : R) : M R :=
  esat_b <- calc_esat (T + 3.11) ;;
  let VPG := esat - esat_b in
  ret VPG.

Definition calc_idso_dTmin (VPD : R) : M R :=
  let dTmin := 3.11 - 1.97 * VPD in
  ret dTmin.

Definition calc_idso_dTmax (VPG : R) : M R :=
  let dTmax := 3.11 - 1.97 * VPG in
  ret dTmax.

Definition calc_CWSI (dTmin dTmax Ta T_target : R) : M R :=
  let dT := T_target - Ta in
  CWSI <- pydiv (dT - dTmin) (dTmax - dTmin) ;;
  ret CWSI.

Definition calc_ETa (CWSI ETc : R) : M R :=
  let ETa := (1 - CWSI) * ETc in
  ret ETa.

(** The defaults written at the call sites of [calc_CWSI_ETa]. *)
Definition NDVI_max_default : R := 0.90.
Definition NDVI_min_default : R := 0.15.
Definition veg_emissivity_default : R := 0.98.
Definition soil_emissivity_default : R := 0.93.
Definition T_background_default : R := -15.

(** ** The per-observation pipeline *)

(** The 13 returned values, in the order of the [return] statement. *)
Definition outputs : Type := (R * R * R * R * R * R * R * R * R * R * R * R * R)%type.

Definition calc_CWSI_ETa (Nir Red T_sensor RH Ta ETc : R) : M outputs :=
  NDVI <- calc_NDVI Nir Red ;;
  NDVI_scaled <- scale_NDVI NDVI 0.90 0.15 ;;
  Fr <- fractional_veg_cover NDVI_scaled ;;
  target_emissivity <- calc_target_emissivity Fr 0.98 0.93 ;;
  T_target <- adj_target_T T_sensor target_emissivity (-15) ;;
  esat <- calc_esat Ta ;;
  ea <- calc_ea Ta RH ;;
  vpd <- calc_VPD esat ea ;;
  vpg <- calc_VPG esat Ta ;;
  dTmin <- calc_idso_dTmin vpd ;;
  dTmax <- calc_idso_dTmax vpg ;;
  cwsi <- calc_CWSI dTmin dTmax Ta T_target ;;
  ETa <- calc_ETa cwsi ETc ;;
  ret (NDVI, NDVI_scaled, Fr, target_emissivity, T_target, esat, ea, vpd, vpg,
       dTmin, dTmax, cwsi, ETa).

(** The data flow as the specification lists it: one equation per stage,
    each stage defined and fed with the outputs of the earlier ones. *)
Definition staged (Nir Red T_sensor RH Ta ETc : R) (out : outputs) : Prop :=
  let '(NDVI, NDVI_scaled, Fr, target_emissivity, T_target, esat, ea, VPD, VPG,
        dTmin, dTmax, CWSI, ETa) := out in
  outcome (calc_NDVI Nir Red) = Ok NDVI /\
  outcome (scale_NDVI NDVI NDVI_max_default NDVI_min_default) = Ok NDVI_scaled /\
  outcome (fractional_veg_cover NDVI_scaled) = Ok Fr /\
  outcome (calc_target_emissivity Fr veg_emissivity_default
             soil_emissivity_default) = Ok target_emissivity /\
  outcome (adj_target_T T_sensor target_emissivity T_background_default)
    = Ok T_target /\
  outcome (calc_esat Ta) = Ok esat /\
  outcome (calc_ea Ta RH) = Ok ea /\
  outcome (calc_VPD esat ea) = Ok VPD /\
  outcome (calc_VPG esat Ta) = Ok VPG /\
  outcome (calc_idso_dTmin VPD) = Ok dTmin /\
  outcome (calc_idso_dTmax VPG) = Ok dTmax /\
  outcome (calc_CWSI dTmin dTmax Ta T_target) = Ok CWSI /\
  outcome (calc_ETa CWSI ETc) = Ok ETa.

(** ** Tables *)

(** A pandas DataFrame with numeric cells, column-major as pandas keeps
    it: a number of rows and the named columns in their order. *)
Record DataFrame : Type := mkDataFrame {
  nrows : nat;
  columns : list (string * list R)
}.

Definition names (df : DataFrame) : list string := map fst (columns df).

(** What [pd.read_csv] hands over: every column as long as the table,
    no column name twice. *)
Definition well_formed (df : DataFrame) : Prop :=
  NoDup (names df) /\
  Forall (fun c => length (snd c) = nrows df) (columns df).

(** A row as [iterrows] yields it: the cells of one line, by column name. *)
Definition Series : Type := list (string * R).

Definition row_at (df : DataFrame) (i : nat) : Series :=
  map (fun c => (fst c, nth i (snd c) 0)) (columns df).

Definition iterrows (df : DataFrame) : list Series :=
  map (row_at df) (seq 0 (nrows df)).

(** [row[col]] *)
Fixpoint getitem (row : Series) (col : string) : M R :=
  match row with
  | [] => raise (KeyError col)
  | (k, v) :: rest => if String.eqb k col then ret v else getitem rest col
  end.

Fixpoint replace_column (cols : list (string * list R)) (name : string)
  (values : list R) : option (list (string * list R)) :=
  match cols with
  | [] => None
  | (k, v) :: rest =>
      if String.eqb k name then Some ((k, values) :: rest)
      else option_map (cons (k, v)) (replace_column rest name values)
  end.

(** [df.loc[:, name] = values]: a column of that name is overwritten
    where it stands, a new name is added as the last column; a list of
    the wrong length is refused. *)
Definition loc_set (df : DataFrame) (name : string) (values : list R)
  : M DataFrame :=
  if Nat.eqb (length values) (nrows df) then
    match replace_column (columns df) name values with
    | Some cols => ret (mkDataFrame (nrows df) cols)
    | None => ret (mkDataFrame (nrows df) (columns df ++ [(name, values)]))
    end
  else raise ValueError.

(** The eleven lists filled by the loop of [run_CWSI_ETa_model]. *)
Record lists : Type := mkLists {
  NDVI_list : list R;
  NDVI_scaled_list : list R;
  Fr_list : list R;
  emissivity_list : list R;
  T_target_list : list R;
  vpd_list : list R;
  vpg_list : list R;
  dTmin_list : list R;
  dTmax_list : list R;
  cwsi_list : list R;
  ETa_list : list R
}.

Definition empty_lists : lists := mkLists [] [] [] [] [] [] [] [] [] [] [].

(** The eleven [append] calls of one iteration. *)
Definition append_outputs (l : lists) (out : outputs) : lists :=
  let '(NDVI, NDVI_scaled, Fr, target_emissivity, T_target, esat, ea, vpd, vpg,
        dTmin, dTmax, cwsi, ETa) := out in
  mkLists (NDVI_list l ++ [NDVI])
          (NDVI_scaled_list l ++ [NDVI_scaled])
          (Fr_list l ++ [Fr])
          (emissivity_list l ++ [target_emissivity])
          (T_target_list l ++ [T_target])
          (vpd_list l ++ [vpd])
          (vpg_list l ++ [vpg])
          (dTmin_list l ++ [dTmin])
          (dTmax_list l ++ [dTmax])
          (cwsi_list l ++ [cwsi])
          (ETa_list l ++ [ETa]).

(** The column names passed to [run_CWSI_ETa_model]. *)
Record colnames : Type := mkColnames {
  Nir_col : string;
  Red_col : string;
  T_sensor_col : string;
  RH_col : string;
  Ta_col : string;
  ETc_col : string
}.

Definition default_colnames : colnames :=
  mkColnames "R_nir" "R_red" "T_target" "RH" "Air Temp" "ETc".

Definition required (cn : colnames) : list string :=
  [Nir_col cn; Red_col cn; T_sensor_col cn; RH_col cn; Ta_col cn; ETc_col cn].

(** One iteration of the loop: the six arguments are read from the row,
    left to right, then the pipeline is called. *)
Definition process_row (cn : colnames) (row : Series) : M outputs :=
  Nir <- getitem row (Nir_col cn) ;;
  Red <- getitem row (Red_col cn) ;;
  T_sensor <- getitem row (T_sensor_col cn) ;;
  RH <- getitem row (RH_col cn) ;;
  Ta <- getitem row (Ta_col cn) ;;
  ETc <- getitem row (ETc_col cn) ;;
  calc_CWSI_ETa Nir Red T_sensor RH Ta ETc.

Fixpoint loop (cn : colnames) (rows : list Series) (l : lists) : M lists :=
  match rows with
  | [] => ret l
  | row :: rest =>
      out <- process_row cn row ;;
      loop cn rest (append_outputs l out)
  end.

(** The names of the result columns, in the order they are assigned. *)
Definition result_names : list string :=
  ["NDVI"; "NDVI_scaled"; "Fr"; "target_emissivity"; "T_target_corr";
   "VPD"; "VPG"; "dTmin"; "dTmax"; "CWSI"; "ETa"]%string.

Definition result_columns (l : lists) : list (string * list R) :=
  [("NDVI", NDVI_list l); ("NDVI_scaled", NDVI_scaled_list l);
   ("Fr", Fr_list l); ("target_emissivity", emissivity_list l);
   ("T_target_corr", T_target_list l); ("VPD", vpd_list l);
   ("VPG", vpg_list l); ("dTmin", dTmin_list l); ("dTmax", dTmax_list l);
   ("CWSI", cwsi_list l); ("ETa", ETa_list l)]%string.

(** [run_CWSI_ETa_model]: [input_df] is what [pd.read_csv] returned; the
    value of the computation is the table handed to [to_csv], the last
    statement, so a run that ends in an exception writes nothing. *)
Definition run_CWSI_ETa_model (input_df : DataFrame) (cn : colnames)
  : M DataFrame :=
  let output_df := input_df in
  l <- loop cn (iterrows output_df) empty_lists ;;
  output_df <- loc_set output_df "NDVI" (NDVI_list l) ;;
  output_df <- loc_set output_df "NDVI_scaled" (NDVI_scaled_list l) ;;
  output_df <- loc_set output_df "Fr" (Fr_list l) ;;
  output_df <- loc_set output_df "target_emissivity" (emissivity_list l) ;;
  output_df <- loc_set output_df "T_target_corr" (T_target_list l) ;;
  output_df <- loc_set output_df "VPD" (vpd_list l) ;;
  output_df <- loc_set output_df "VPG" (vpg_list l) ;;
  output_df <- loc_set output_df "dTmin" (dTmin_list l) ;;
  output_df <- loc_set output_df "dTmax" (dTmax_list l) ;;
  output_df <- loc_set output_df "CWSI" (cwsi_list l) ;;
  output_df <- loc_set output_df "ETa" (ETa_list l) ;;
  ret output_df.

(** ** Reading the results back *)

(** The components of the returned tuple that the loop appends. *)
Definition out_NDVI (o : outputs) : R :=
  let '(NDVI, _, _, _, _, _, _, _, _, _, _, _, _) := o in NDVI.
Definition out_NDVI_scaled (o : outputs) : R :=
  let '(_, NDVI_scaled, _, _, _, _, _, _, _, _, _, _, _) := o in NDVI_scaled.
Definition out_Fr (o : outputs) : R :=
  let '(_, _, Fr, _, _, _, _, _, _, _, _, _, _) := o in Fr.
Definition out_emissivity (o : outputs) : R :=
  let '(_, _, _, target_emissivity, _, _, _, _, _, _, _, _, _) := o in
  target_emissivity.
Definition out_T_target (o : outputs) : R :=
  let '(_, _, _, _, T_target, _, _, _, _, _, _, _, _) := o in T_target.
Definition out_vpd (o : outputs) : R :=
  let '(_, _, _, _, _, _, _, vpd, _, _, _, _, _) := o in vpd.
Definition out_vpg (o : outputs) : R :=
  let '(_, _, _, _, _, _, _, _, vpg, _, _, _, _) := o in vpg.
Definition out_dTmin (o : outputs) : R :=
  let '(_, _, _, _, _, _, _, _, _, dTmin, _, _, _) := o in dTmin.
Definition out_dTmax (o : outputs) : R :=
  let '(_, _, _, _, _, _, _, _, _, _, dTmax, _, _) := o in dTmax.
Definition out_cwsi (o : outputs) : R :=
  let '(_, _, _, _, _, _, _, _, _, _, _, cwsi, _) := o in cwsi.
Definition out_ETa (o : outputs) : R :=
  let '(_, _, _, _, _, _, _, _, _, _, _, _, ETa) := o in ETa.

(** The cells one observation contributes to the result columns. *)
Definition result_cells (o : outputs) : Series :=
  [("NDVI", out_NDVI o); ("NDVI_scaled", out_NDVI_scaled o); ("Fr", out_Fr o);
   ("target_emissivity", out_emissivity o); ("T_target_corr", out_T_target o);
   ("VPD", out_vpd o); ("VPG", out_vpg o); ("dTmin", out_dTmin o);
   ("dTmax", out_dTmax o); ("CWSI", out_cwsi o); ("ETa", out_ETa o)]%string.

Definition zero_outputs : outputs := (0, 0, 0, 0, 0, 0, 0, 0, 0, 0, 0, 0, 0).

(** The tuple a computation returned ([zero_outputs] if it raised). *)
Definition returned (m : M outputs) : outputs :=
  match outcome m with
  | Ok o => o
  | Err _ => zero_outputs
  end.

(** Lines 313-326 of [run_CWSI_ETa_model] on their own: the eleven
    assignments that follow the loop. *)
Definition assign_results (output_df : DataFrame) (l : lists) : M DataFrame :=
  output_df <- loc_set output_df "NDVI" (NDVI_list l) ;;
  output_df <- loc_set output_df "NDVI_scaled" (NDVI_scaled_list l) ;;
  output_df <- loc_set output_df "Fr" (Fr_list l) ;;
  output_df <- loc_set output_df "target_emissivity" (emissivity_list l) ;;
  output_df <- loc_set output_df "T_target_corr" (T_target_list l) ;;
  output_df <- loc_set output_df "VPD" (vpd_list l) ;;
  output_df <- loc_set output_df "VPG" (vpg_list l) ;;
  output_df <- loc_set output_df "dTmin" (dTmin_list l) ;;
  output_df <- loc_set output_df "dTmax" (dTmax_list l) ;;
  output_df <- loc_set output_df "CWSI" (cwsi_list l) ;;
  output_df <- loc_set output_df "ETa" (ETa_list l) ;;
  ret output_df.

(** The assignments of [assign_results] as a traversal of the columns
    assigned. *)
Fixpoint assign_all (df : DataFrame) (cols : list (string * list R))
  : M DataFrame :=
  match cols with
  | [] => ret df
  | (name, values) :: rest =>
      df' <- loc_set df name values ;; assign_all df' rest
  end.

(** The value [calc_esat] returns where its division is defined. *)
Definition tetens (T : R) : R := 0.6108 * exp (17.27 * T / (T + 237.3)).

(** * Properties *)

(** ** The computation monad *)

Lemma bind_ret_l {A B} (a : A) (k : A -> M B) : bind (ret a) k = k a.
Proof. unfold bind, ret. destruct (k a) as [ws r]. reflexivity. Qed.

Lemma bind_raise {A B} (e : error) (k : A -> M B) : bind (raise e) k = raise e.
Proof. reflexivity. Qed.

Lemma bind_ret_r {A} (m : M A) : bind m ret = m.
Proof.
  destruct m as [ws [a | e]]; simpl; [rewrite app_nil_r |]; reflexivity.
Qed.

Lemma outcome_bind_Ok {A B} (m : M A) (k : A -> M B) (b : B) :
  outcome (bind m k) = Ok b <->
  exists a, outcome m = Ok a /\ outcome (k a) = Ok b.
Proof.
  destruct m as [ws [a | e]]; unfold outcome; simpl.
  - destruct (k a) as [ws' r] eqn:E; simpl. split.
    + intros ->. exists a. rewrite E. auto.
    + intros [a' [Ha Hk]]. inversion Ha; subst a'. rewrite E in Hk. exact Hk.
  - split; [discriminate | intros [a [Ha _]]; discriminate].
Qed.

Lemma outcome_ret {A} (a b : A) : outcome (ret a) = Ok b <-> a = b.
Proof. unfold outcome, ret; simpl. split; [intros [= ->] | intros ->]; reflexivity. Qed.

Lemma pydiv_nonzero (a b : R) : b <> 0 -> pydiv a b = ret (a / b).
Proof. intros Hb. unfold pydiv. destruct (Req_dec_T b 0); [contradiction | reflexivity]. Qed.

Lemma pydiv_zero (a b : R) : b = 0 -> pydiv a b = raise ZeroDivisionError.
Proof. intros Hb. unfold pydiv. destruct (Req_dec_T b 0); [reflexivity | contradiction]. Qed.

Lemma pow_quarter_nonneg (x : R) : 0 <= x -> pow_quarter x = ret (root4 x).
Proof. intros Hx. unfold pow_quarter. destruct (Rlt_dec x 0); [lra | reflexivity]. Qed.

(** ** Saturation vapour pressure *)

Lemma calc_esat_defined (T : R) : T + 237.3 <> 0 -> calc_esat T = ret (tetens T).
Proof.
  intros HT. unfold calc_esat. rewrite (pydiv_nonzero _ _ HT), bind_ret_l.
  reflexivity.
Qed.

Lemma calc_esat_pole (T : R) : T + 237.3 = 0 -> calc_esat T = raise ZeroDivisionError.
Proof. intros HT. unfold calc_esat. rewrite (pydiv_zero _ _ HT). reflexivity. Qed.

Lemma tetens_pos (T : R) : 0 < tetens T.
Proof. unfold tetens. pose proof (exp_pos (17.27 * T / (T + 237.3))). lra. Qed.

Lemma tetens_exponent_diff (T1 T2 : R) :
  T1 + 237.3 <> 0 -> T2 + 237.3 <> 0 ->
  17.27 * T2 / (T2 + 237.3) - 17.27 * T1 / (T1 + 237.3)
  = 17.27 * 237.3 * (T2 - T1) / ((T1 + 237.3) * (T2 + 237.3)).
Proof. intros H1 H2. field. split; assumption. Qed.

(** On one side of the pole the Tetens curve rises. *)
Lemma tetens_increasing (T1 T2 : R) :
  0 < (T1 + 237.3) * (T2 + 237.3) -> T1 < T2 -> tetens T1 < tetens T2.
Proof.
  intros Hside Hlt.
  assert (H1 : T1 + 237.3 <> 0) by (intros E; rewrite E in Hside; lra).
  assert (H2 : T2 + 237.3 <> 0) by (intros E; rewrite E in Hside; lra).
  pose proof (tetens_exponent_diff T1 T2 H1 H2) as Hd.
  assert (Hpos : 0 < 17.27 * 237.3 * (T2 - T1) / ((T1 + 237.3) * (T2 + 237.3))).
  { apply Rdiv_lt_0_compat; [| exact Hside].
    apply Rmult_lt_0_compat; lra. }
  unfold tetens.
  apply Rmult_lt_compat_l; [lra |].
  apply exp_increasing. lra.
Qed.

(** Across the pole it falls: left of [-237.3] the exponent exceeds
    [17.27], right of it the exponent stays below. *)
Lemma tetens_across_pole (T1 T2 : R) :
  T1 + 237.3 < 0 -> 0 < T2 + 237.3 -> tetens T2 < tetens T1.
Proof.
  intros H1 H2.
  assert (Hd : 17.27 * T2 / (T2 + 237.3) - 17.27 * T1 / (T1 + 237.3)
               = - (17.27 * 237.3 * (T2 - T1) / ((- (T1 + 237.3)) * (T2 + 237.3)))).
  { field. split; lra. }
  assert (Hpos : 0 < 17.27 * 237.3 * (T2 - T1) / ((- (T1 + 237.3)) * (T2 + 237.3))).
  { apply Rdiv_lt_0_compat.
    - apply Rmult_lt_0_compat; lra.
    - apply Rmult_lt_0_compat; lra. }
  unfold tetens.
  apply Rmult_lt_compat_l; [lra |].
  apply exp_increasing. lra.
Qed.

(** ** NDVI *)

(** C7: for [Nir + Red <> 0], [calc_NDVI] returns [(Nir - Red) / (Nir + Red)],
    swapping the bands negates the value, and for non-negative bands the
    value lies in [[-1, 1]]. *)
Theorem calc_NDVI_antisymmetric_bounded (Nir Red : R) :
  Nir + Red <> 0 ->
  exists v,
    calc_NDVI Nir Red = ret v /\
    calc_NDVI Red Nir = ret (- v) /\
    (0 <= Nir -> 0 <= Red -> -1 <= v <= 1).
Proof.
  intros Hs. exists ((Nir - Red) / (Nir + Red)).
  assert (Hs' : Red + Nir <> 0) by lra.
  unfold calc_NDVI. rewrite (pydiv_nonzero _ _ Hs), (pydiv_nonzero _ _ Hs').
  split; [reflexivity |]. split.
  - f_equal. field. repeat split; assumption.
  - intros HN HR.
    assert (Hpos : 0 < Nir + Red) by lra.
    split.
    + apply Rmult_le_reg_r with (Nir + Red); [exact Hpos |].
      unfold Rdiv. rewrite Rmult_assoc, Rinv_l by exact Hs. lra.
    + apply Rmult_le_reg_r with (Nir + Red); [exact Hpos |].
      unfold Rdiv. rewrite Rmult_assoc, Rinv_l by exact Hs. lra.
Qed.

Lemma calc_NDVI_antisymmetric_bounded_witness :
  exists v, calc_NDVI 0.6 0.1 = ret v /\ calc_NDVI 0.1 0.6 = ret (- v) /\
            -1 <= v <= 1.
Proof.
  destruct (calc_NDVI_antisymmetric_bounded 0.6 0.1) as [v [H1 [H2 H3]]];
    [lra |].
  exists v. split; [exact H1 |]. split; [exact H2 |]. apply H3; lra.
Defined.

(** ** Fractional cover *)

Lemma sqr_nonneg (s : R) : 0 <= s ^ 2.
Proof. apply pow2_ge_0. Qed.

Lemma fractional_veg_cover_eq (s : R) :
  fractional_veg_cover s =
  if Rgt_dec (s ^ 2) 1 then ([FrGreaterThan1 (s ^ 2)], Ok 1) else ([], Ok (s ^ 2)).
Proof.
  unfold fractional_veg_cover.
  destruct (Rlt_dec (s ^ 2) 0) as [Hneg | _].
  - pose proof (sqr_nonneg s). lra.
  - destruct (Rgt_dec (s ^ 2) 1); reflexivity.
Qed.

(** C2: the value returned is within [[0, 1]]; a warning is emitted exactly
    when the square lies outside [[0, 1]], and every warning emitted names
    that square. *)
Theorem fractional_veg_cover_clamped (s : R) :
  exists Fr,
    outcome (fractional_veg_cover s) = Ok Fr /\
    0 <= Fr <= 1 /\
    (warnings_of (fractional_veg_cover s) <> [] <-> (s ^ 2 < 0 \/ s ^ 2 > 1)) /\
    (forall w, In w (warnings_of (fractional_veg_cover s)) ->
               warned_value w = s ^ 2).
Proof.
  unfold fractional_veg_cover.
  destruct (Rlt_dec (s ^ 2) 0) as [Hneg | Hnn].
  - exists 0. cbn.
    split; [reflexivity |]. split; [lra |]. split; [split |].
    + intros _. left. exact Hneg.
    + intros _. discriminate.
    + intros w [<- | []]. reflexivity.
  - destruct (Rgt_dec (s ^ 2) 1) as [Hgt | Hle].
    + exists 1. cbn.
      split; [reflexivity |]. split; [lra |]. split; [split |].
      * intros _. right. exact Hgt.
      * intros _. discriminate.
      * intros w [<- | []]. reflexivity.
    + exists (s ^ 2). cbn.
      split; [reflexivity |]. split; [lra |]. split; [split |].
      * intros H. contradiction H. reflexivity.
      * intros [H | H]; lra.
      * intros w [].
Qed.

(** C10: the square is never negative, so the [Fr < 0] branch is dead:
    the function is [min (s^2) 1], no less-than-0 warning is ever emitted,
    and the log is the single greater-than-1 warning when [s^2 > 1] and
    empty otherwise. *)
Theorem fractional_veg_cover_min (s : R) :
  ~ s ^ 2 < 0 /\
  outcome (fractional_veg_cover s) = Ok (Rmin (s ^ 2) 1) /\
  (forall v, ~ In (FrLessThan0 v) (warnings_of (fractional_veg_cover s))) /\
  (s ^ 2 > 1 -> warnings_of (fractional_veg_cover s) = [FrGreaterThan1 (s ^ 2)]) /\
  (~ s ^ 2 > 1 -> warnings_of (fractional_veg_cover s) = []).
Proof.
  pose proof (sqr_nonneg s) as Hnn.
  rewrite fractional_veg_cover_eq.
  split; [lra |].
  destruct (Rgt_dec (s ^ 2) 1) as [Hgt | Hle]; cbn.
  - split; [| split; [| split]].
    + rewrite Rmin_right by lra. reflexivity.
    + intros v [H | []]. discriminate.
    + reflexivity.
    + intros H. contradiction.
  - split; [| split; [| split]].
    + rewrite Rmin_left by lra. reflexivity.
    + intros v [].
    + intros H. contradiction.
    + reflexivity.
Qed.

(** ** CWSI *)

(** C4: with [dTmax <> dTmin] the quotient is returned; with
    [dTmax = dTmin] the division fails; there is no other failure. *)
Theorem calc_CWSI_total_but_equal_bounds (dTmin dTmax Ta T_target : R) :
  (dTmax <> dTmin ->
   calc_CWSI dTmin dTmax Ta T_target
   = ret (((T_target - Ta) - dTmin) / (dTmax - dTmin))) /\
  (dTmax = dTmin ->
   calc_CWSI dTmin dTmax Ta T_target = raise ZeroDivisionError) /\
  (forall e, outcome (calc_CWSI dTmin dTmax Ta T_target) = Err e ->
             dTmax = dTmin /\ e = ZeroDivisionError).
Proof.
  unfold calc_CWSI.
  destruct (Req_dec_T (dTmax - dTmin) 0) as [Hz | Hnz].
  - rewrite (pydiv_zero _ _ Hz). split; [| split].
    + intros H. lra.
    + reflexivity.
    + intros e H. cbn in H. split; [lra | congruence].
  - rewrite (pydiv_nonzero _ _ Hnz), bind_ret_l. split; [| split].
    + reflexivity.
    + intros H. lra.
    + intros e H. cbn in H. discriminate.
Qed.

(** ** Vapour pressure: monotonicity and sign *)

(** C5, as stated, fails: [-250 < 0], [calc_esat] is defined at both, and
    its value at [-250] is the larger one. *)
Lemma calc_esat_not_monotone :
  ~ (forall T1 T2 e1 e2,
        T1 < T2 ->
        outcome (calc_esat T1) = Ok e1 ->
        outcome (calc_esat T2) = Ok e2 ->
        e1 < e2).
Proof.
  intros Hmono.
  assert (H1 : (-250) + 237.3 <> 0) by lra.
  assert (H2 : 0 + 237.3 <> 0) by lra.
  specialize (Hmono (-250) 0 (tetens (-250)) (tetens 0)).
  rewrite (calc_esat_defined _ H1), (calc_esat_defined _ H2) in Hmono.
  assert (Hlt : tetens (-250) < tetens 0).
  { apply Hmono; [lra | reflexivity | reflexivity]. }
  assert (Hgt : tetens 0 < tetens (-250)) by (apply tetens_across_pole; lra).
  lra.
Qed.

(** C5, amended: for [T1 < T2] on the same side of the pole [-237.3],
    [calc_esat] returns at both and the value at [T1] is the smaller. *)
Theorem calc_esat_increasing_one_side (T1 T2 : R) :
  0 < (T1 + 237.3) * (T2 + 237.3) ->
  T1 < T2 ->
  exists e1 e2,
    calc_esat T1 = ret e1 /\ calc_esat T2 = ret e2 /\ e1 < e2.
Proof.
  intros Hside Hlt.
  assert (H1 : T1 + 237.3 <> 0) by (intros E; rewrite E in Hside; lra).
  assert (H2 : T2 + 237.3 <> 0) by (intros E; rewrite E in Hside; lra).
  exists (tetens T1), (tetens T2).
  split; [apply calc_esat_defined; exact H1 |].
  split; [apply calc_esat_defined; exact H2 |].
  apply tetens_increasing; assumption.
Qed.

Lemma calc_esat_increasing_one_side_witness :
  exists e1 e2, calc_esat 20 = ret e1 /\ calc_esat 25 = ret e2 /\ e1 < e2.
Proof. apply (calc_esat_increasing_one_side 20 25); lra. Defined.

Lemma calc_VPG_defined (esat T : R) :
  T + 3.11 + 237.3 <> 0 -> calc_VPG esat T = ret (esat - tetens (T + 3.11)).
Proof.
  intros HT. unfold calc_VPG.
  rewrite (calc_esat_defined _ HT), bind_ret_l. reflexivity.
Qed.

Lemma tetens_shift_lt (T : R) : T > -237.3 -> tetens T < tetens (T + 3.11).
Proof.
  intros HT. apply tetens_increasing; [| lra].
  apply Rmult_lt_0_compat; lra.
Qed.

(** C8: for [T > -237.3], [calc_VPG (calc_esat T) T] is returned, equals
    [calc_esat T - calc_esat (T + 3.11)], and is strictly negative. *)
Theorem calc_VPG_negative (T : R) :
  T > -237.3 ->
  exists esat esat_b VPG,
    calc_esat T = ret esat /\
    calc_esat (T + 3.11) = ret esat_b /\
    calc_VPG esat T = ret VPG /\
    VPG = esat - esat_b /\
    VPG < 0.
Proof.
  intros HT.
  assert (H1 : T + 237.3 <> 0) by lra.
  assert (H2 : T + 3.11 + 237.3 <> 0) by lra.
  exists (tetens T), (tetens (T + 3.11)), (tetens T - tetens (T + 3.11)).
  split; [apply calc_esat_defined; exact H1 |].
  split; [apply calc_esat_defined; exact H2 |].
  split; [apply calc_VPG_defined; exact H2 |].
  split; [reflexivity |].
  pose proof (tetens_shift_lt T HT). lra.
Qed.

Lemma calc_VPG_negative_witness :
  exists esat esat_b VPG,
    calc_esat 25 = ret esat /\
    calc_esat (25 + 3.11) = ret esat_b /\
    calc_VPG esat 25 = ret VPG /\
    VPG = esat - esat_b /\
    VPG < 0.
Proof. apply (calc_VPG_negative 25); lra. Defined.

(** ** The pipeline as the composition of its stages *)

Ltac stage H :=
  apply outcome_bind_Ok; eexists; split; [exact H |].

Lemma calc_CWSI_ETa_complete (Nir Red T_sensor RH Ta ETc : R) (out : outputs) :
  staged Nir Red T_sensor RH Ta ETc out ->
  outcome (calc_CWSI_ETa Nir Red T_sensor RH Ta ETc) = Ok out.
Proof.
  destruct out as [[[[[[[[[[[[NDVI NDVI_scaled] Fr] eps] T_target] esat] ea]
                         VPD] VPG] dTmin] dTmax] CWSI] ETa].
  intros (H1 & H2 & H3 & H4 & H5 & H6 & H7 & H8 & H9 & H10 & H11 & H12 & H13).
  unfold calc_CWSI_ETa.
  stage H1. stage H2. stage H3. stage H4. stage H5. stage H6. stage H7.
  stage H8. stage H9. stage H10. stage H11. stage H12. stage H13.
  reflexivity.
Qed.

Ltac unstage H v Hv :=
  apply outcome_bind_Ok in H; destruct H as [v [Hv H]].

Lemma calc_CWSI_ETa_sound (Nir Red T_sensor RH Ta ETc : R) (out : outputs) :
  outcome (calc_CWSI_ETa Nir Red T_sensor RH Ta ETc) = Ok out ->
  staged Nir Red T_sensor RH Ta ETc out.
Proof.
  unfold calc_CWSI_ETa. intros H.
  unstage H NDVI H1. unstage H NDVI_scaled H2. unstage H Fr H3.
  unstage H eps H4. unstage H T_target H5. unstage H esat H6.
  unstage H ea H7. unstage H VPD H8. unstage H VPG H9.
  unstage H dTmin H10. unstage H dTmax H11. unstage H CWSI H12.
  unstage H ETa H13.
  apply (proj1 (outcome_ret _ _)) in H. subst out. cbv beta iota delta [staged].
  repeat (split; [assumption |]). assumption.
Qed.

(** C1: [calc_CWSI_ETa] returns a 13-tuple exactly when that tuple is the
    chain of the leaf stages in the listed order, each defined and fed
    with the earlier outputs and the default constants, with [esat] and
    [ea] taken at [Ta]. *)
Theorem calc_CWSI_ETa_composes_stages (Nir Red T_sensor RH Ta ETc : R)
  (out : outputs) :
  staged Nir Red T_sensor RH Ta ETc out <->
  outcome (calc_CWSI_ETa Nir Red T_sensor RH Ta ETc) = Ok out.
Proof.
  split; [apply calc_CWSI_ETa_complete | apply calc_CWSI_ETa_sound].
Qed.

(** ** The CWSI denominator inside the pipeline *)

Lemma outcome_of_ret {A} (m : M A) (a : A) : m = ret a -> outcome m = Ok a.
Proof. intros ->. reflexivity. Qed.

Lemma calc_ea_defined (T RH : R) :
  T + 237.3 <> 0 -> calc_ea T RH = ret (RH * tetens T / 100).
Proof.
  intros HT. unfold calc_ea.
  rewrite (calc_esat_defined _ HT), bind_ret_l. reflexivity.
Qed.

Lemma vpd_nonneg (Ta RH : R) :
  0 <= RH <= 100 -> 0 <= tetens Ta - RH * tetens Ta / 100.
Proof.
  intros HRH. pose proof (tetens_pos Ta) as Hp.
  replace (tetens Ta - RH * tetens Ta / 100)
    with (tetens Ta * ((100 - RH) / 100)) by field.
  apply Rmult_le_pos; lra.
Qed.

Lemma idso_bounds_ordered (Ta RH : R) :
  Ta > -237.3 -> 0 <= RH <= 100 ->
  3.11 - 1.97 * (tetens Ta - RH * tetens Ta / 100)
  < 3.11 - 1.97 * (tetens Ta - tetens (Ta + 3.11)).
Proof.
  intros HT HRH.
  pose proof (vpd_nonneg Ta RH HRH). pose proof (tetens_shift_lt Ta HT). lra.
Qed.

Lemma fractional_veg_cover_outcome (s : R) :
  outcome (fractional_veg_cover s) = Ok (Rmin (s ^ 2) 1).
Proof.
  rewrite fractional_veg_cover_eq.
  destruct (Rgt_dec (s ^ 2) 1); cbn;
    [rewrite Rmin_right by lra | rewrite Rmin_left by lra]; reflexivity.
Qed.

Lemma Rmin_sqr_unit (s : R) : 0 <= Rmin (s ^ 2) 1 <= 1.
Proof.
  pose proof (sqr_nonneg s). split.
  - apply Rmin_glb; lra.
  - apply Rmin_r.
Qed.

Lemma adj_target_T_defined (T_sensor eps : R) :
  0.93 <= eps <= 0.98 -> 3544 <= T_sensor ^ 4 ->
  adj_target_T T_sensor eps (-15)
  = ret (root4 ((T_sensor ^ 4 - (1 - eps) * (-15) ^ 4) / eps)).
Proof.
  intros He HT. unfold adj_target_T.
  assert (Hne : eps <> 0) by lra.
  rewrite (pydiv_nonzero _ _ Hne), bind_ret_l.
  assert (H15 : (-15) ^ 4 = 50625) by ring.
  rewrite pow_quarter_nonneg, bind_ret_l; [reflexivity |].
  rewrite H15. apply Rmult_le_pos.
  - nra.
  - left. apply Rinv_0_lt_compat. lra.
Qed.

(** Inputs on which every stage of the pipeline is defined. *)
Lemma calc_CWSI_ETa_defined (Nir Red T_sensor RH Ta ETc : R) :
  Nir + Red <> 0 -> 3544 <= T_sensor ^ 4 -> Ta > -237.3 -> 0 <= RH <= 100 ->
  exists out, outcome (calc_CWSI_ETa Nir Red T_sensor RH Ta ETc) = Ok out.
Proof.
  intros HN HT HTa HRH.
  pose (NDVI := (Nir - Red) / (Nir + Red)).
  pose (NDVI_scaled := (NDVI - 0.15) / (0.90 - 0.15)).
  pose (Fr := Rmin (NDVI_scaled ^ 2) 1).
  pose (eps := Fr * 0.98 + (1 - Fr) * 0.93).
  pose (T_target := root4 ((T_sensor ^ 4 - (1 - eps) * (-15) ^ 4) / eps)).
  pose (esat := tetens Ta).
  pose (ea := RH * esat / 100).
  pose (vpd := esat - ea).
  pose (vpg := esat - tetens (Ta + 3.11)).
  pose (dTmin := 3.11 - 1.97 * vpd).
  pose (dTmax := 3.11 - 1.97 * vpg).
  pose (cwsi := ((T_target - Ta) - dTmin) / (dTmax - dTmin)).
  pose (ETa := (1 - cwsi) * ETc).
  exists (NDVI, NDVI_scaled, Fr, eps, T_target, esat, ea, vpd, vpg, dTmin, dTmax,
          cwsi, ETa).
  apply calc_CWSI_ETa_complete. cbv beta iota delta [staged].
  assert (HFr : 0 <= Fr <= 1) by apply Rmin_sqr_unit.
  assert (Heps : 0.93 <= eps <= 0.98) by (unfold eps; lra).
  assert (Hgap : dTmin < dTmax) by (apply idso_bounds_ordered; assumption).
  repeat split.
  - apply outcome_of_ret. unfold calc_NDVI. apply pydiv_nonzero. exact HN.
  - apply outcome_of_ret. unfold scale_NDVI, NDVI_max_default, NDVI_min_default.
    rewrite pydiv_nonzero by lra. apply bind_ret_l.
  - apply fractional_veg_cover_outcome.
  - apply outcome_of_ret. apply adj_target_T_defined; assumption.
  - apply outcome_of_ret. apply calc_esat_defined. lra.
  - apply outcome_of_ret. apply calc_ea_defined. lra.
  - apply outcome_of_ret. apply calc_VPG_defined. lra.
  - apply outcome_of_ret. unfold calc_CWSI.
    rewrite pydiv_nonzero by lra. apply bind_ret_l.
Qed.

(** C6: for [Ta > -237.3] and [RH] in [[0, 100]] the vapour-pressure
    stages return, [VPD = esat * (1 - RH/100) >= 0], [VPG < 0],
    [dTmax - dTmin = 1.97 * (VPD - VPG) > 0], the CWSI step returns its
    quotient for every target temperature, and [calc_CWSI_ETa] returns
    whenever its stages up to the corrected target temperature do. *)
Theorem cwsi_denominator_positive (Ta RH : R) :
  Ta > -237.3 -> 0 <= RH <= 100 ->
  exists esat ea VPD VPG dTmin dTmax,
    calc_esat Ta = ret esat /\
    calc_ea Ta RH = ret ea /\
    calc_VPD esat ea = ret VPD /\
    calc_VPG esat Ta = ret VPG /\
    calc_idso_dTmin VPD = ret dTmin /\
    calc_idso_dTmax VPG = ret dTmax /\
    VPD = esat * (1 - RH / 100) /\
    0 <= VPD /\
    VPG < 0 /\
    dTmax - dTmin = 1.97 * (VPD - VPG) /\
    0 < dTmax - dTmin /\
    (forall T_target,
        calc_CWSI dTmin dTmax Ta T_target
        = ret (((T_target - Ta) - dTmin) / (dTmax - dTmin))) /\
    (forall Nir Red T_sensor ETc NDVI NDVI_scaled Fr eps T_target,
        outcome (calc_NDVI Nir Red) = Ok NDVI ->
        outcome (scale_NDVI NDVI 0.90 0.15) = Ok NDVI_scaled ->
        outcome (fractional_veg_cover NDVI_scaled) = Ok Fr ->
        outcome (calc_target_emissivity Fr 0.98 0.93) = Ok eps ->
        outcome (adj_target_T T_sensor eps (-15)) = Ok T_target ->
        outcome (calc_CWSI_ETa Nir Red T_sensor RH Ta ETc)
        = Ok (NDVI, NDVI_scaled, Fr, eps, T_target, esat, ea, VPD, VPG,
              dTmin, dTmax,
              ((T_target - Ta) - dTmin) / (dTmax - dTmin),
              (1 - ((T_target - Ta) - dTmin) / (dTmax - dTmin)) * ETc)).
Proof.
  intros HT HRH.
  exists (tetens Ta), (RH * tetens Ta / 100),
         (tetens Ta - RH * tetens Ta / 100),
         (tetens Ta - tetens (Ta + 3.11)),
         (3.11 - 1.97 * (tetens Ta - RH * tetens Ta / 100)),
         (3.11 - 1.97 * (tetens Ta - tetens (Ta + 3.11))).
  pose proof (vpd_nonneg Ta RH HRH) as Hvpd.
  pose proof (tetens_shift_lt Ta HT) as Hvpg.
  pose proof (idso_bounds_ordered Ta RH HT HRH) as Hgap.
  assert (Hcwsi : forall T_target,
             calc_CWSI (3.11 - 1.97 * (tetens Ta - RH * tetens Ta / 100))
               (3.11 - 1.97 * (tetens Ta - tetens (Ta + 3.11))) Ta T_target
             = ret (((T_target - Ta)
                     - (3.11 - 1.97 * (tetens Ta - RH * tetens Ta / 100)))
                    / ((3.11 - 1.97 * (tetens Ta - tetens (Ta + 3.11)))
                       - (3.11 - 1.97 * (tetens Ta - RH * tetens Ta / 100))))).
  { intros T_target. unfold calc_CWSI.
    rewrite pydiv_nonzero by lra. apply bind_ret_l. }
  split; [apply calc_esat_defined; lra |].
  split; [apply calc_ea_defined; lra |].
  split; [reflexivity |].
  split; [apply calc_VPG_defined; lra |].
  split; [reflexivity |].
  split; [reflexivity |].
  split; [field |].
  split; [exact Hvpd |].
  split; [lra |].
  split; [ring |].
  split; [lra |].
  split; [exact Hcwsi |].
  intros Nir Red T_sensor ETc NDVI NDVI_scaled Fr eps T_target H1 H2 H3 H4 H5.
  apply calc_CWSI_ETa_complete. cbv beta iota delta [staged].
  split; [exact H1 |]. split; [exact H2 |]. split; [exact H3 |].
  split; [exact H4 |]. split; [exact H5 |].
  split; [apply outcome_of_ret, calc_esat_defined; lra |].
  split; [apply outcome_of_ret, calc_ea_defined; lra |].
  split; [reflexivity |].
  split; [apply outcome_of_ret, calc_VPG_defined; lra |].
  split; [reflexivity |]. split; [reflexivity |].
  split; [apply outcome_of_ret, Hcwsi | reflexivity].
Qed.

Lemma cwsi_denominator_positive_witness :
  exists esat ea VPD VPG dTmin dTmax,
    calc_esat 25 = ret esat /\
    calc_ea 25 50 = ret ea /\
    calc_VPD esat ea = ret VPD /\
    calc_VPG esat 25 = ret VPG /\
    calc_idso_dTmin VPD = ret dTmin /\
    calc_idso_dTmax VPG = ret dTmax /\
    VPD = esat * (1 - 50 / 100) /\
    0 <= VPD /\
    VPG < 0 /\
    dTmax - dTmin = 1.97 * (VPD - VPG) /\
    0 < dTmax - dTmin /\
    (forall T_target,
        calc_CWSI dTmin dTmax 25 T_target
        = ret (((T_target - 25) - dTmin) / (dTmax - dTmin))) /\
    (forall Nir Red T_sensor ETc NDVI NDVI_scaled Fr eps T_target,
        outcome (calc_NDVI Nir Red) = Ok NDVI ->
        outcome (scale_NDVI NDVI 0.90 0.15) = Ok NDVI_scaled ->
        outcome (fractional_veg_cover NDVI_scaled) = Ok Fr ->
        outcome (calc_target_emissivity Fr 0.98 0.93) = Ok eps ->
        outcome (adj_target_T T_sensor eps (-15)) = Ok T_target ->
        outcome (calc_CWSI_ETa Nir Red T_sensor 50 25 ETc)
        = Ok (NDVI, NDVI_scaled, Fr, eps, T_target, esat, ea, VPD, VPG,
              dTmin, dTmax,
              ((T_target - 25) - dTmin) / (dTmax - dTmin),
              (1 - ((T_target - 25) - dTmin) / (dTmax - dTmin)) * ETc)).
Proof. apply (cwsi_denominator_positive 25 50); lra. Defined.

(** ** The batch runner *)

Lemma run_CWSI_ETa_model_unfold (df : DataFrame) (cn : colnames) :
  run_CWSI_ETa_model df cn
  = bind (loop cn (iterrows df) empty_lists) (assign_results df).
Proof. reflexivity. Qed.

Lemma getitem_absent (row : Series) (col : string) :
  ~ In col (map fst row) -> getitem row col = raise (KeyError col).
Proof.
  induction row as [| [k v] rest IH]; intros Hnot; simpl.
  - reflexivity.
  - destruct (String.eqb k col) eqn:E.
    + apply String.eqb_eq in E. exfalso. apply Hnot. left. exact E.
    + apply IH. intros Hin. apply Hnot. right. exact Hin.
Qed.

Lemma getitem_present (row : Series) (col : string) :
  In col (map fst row) -> exists v, getitem row col = ret v.
Proof.
  induction row as [| [k v] rest IH]; intros Hin; simpl.
  - destruct Hin.
  - destruct (String.eqb k col) eqn:E.
    + exists v. reflexivity.
    + apply IH. destruct Hin as [Hk | Hin]; [| exact Hin].
      simpl in Hk. apply String.eqb_neq in E. contradiction.
Qed.

Lemma row_at_names (df : DataFrame) (i : nat) :
  map fst (row_at df i) = names df.
Proof.
  unfold row_at, names. rewrite map_map. reflexivity.
Qed.

(** A row that lacks a required column: the first lookup that misses
    raises, and the pipeline is never entered. *)
Lemma process_row_missing (cn : colnames) (row : Series) :
  (exists c, In c (required cn) /\ ~ In c (map fst row)) ->
  exists c, In c (required cn) /\ ~ In c (map fst row) /\
            process_row cn row = raise (KeyError c).
Proof.
  intros [c [Hreq Hmiss]]. unfold process_row.
  destruct (in_dec string_dec (Nir_col cn) (map fst row)) as [H1 | H1];
    [| exists (Nir_col cn); rewrite (getitem_absent _ _ H1); simpl; auto].
  destruct (getitem_present _ _ H1) as [v1 ->]. rewrite bind_ret_l.
  destruct (in_dec string_dec (Red_col cn) (map fst row)) as [H2 | H2];
    [| exists (Red_col cn); rewrite (getitem_absent _ _ H2); simpl; auto].
  destruct (getitem_present _ _ H2) as [v2 ->]. rewrite bind_ret_l.
  destruct (in_dec string_dec (T_sensor_col cn) (map fst row)) as [H3 | H3];
    [| exists (T_sensor_col cn); rewrite (getitem_absent _ _ H3); simpl; auto].
  destruct (getitem_present _ _ H3) as [v3 ->]. rewrite bind_ret_l.
  destruct (in_dec string_dec (RH_col cn) (map fst row)) as [H4 | H4];
    [| exists (RH_col cn); rewrite (getitem_absent _ _ H4); simpl; auto 7].
  destruct (getitem_present _ _ H4) as [v4 ->]. rewrite bind_ret_l.
  destruct (in_dec string_dec (Ta_col cn) (map fst row)) as [H5 | H5];
    [| exists (Ta_col cn); rewrite (getitem_absent _ _ H5); simpl; auto 8].
  destruct (getitem_present _ _ H5) as [v5 ->]. rewrite bind_ret_l.
  destruct (in_dec string_dec (ETc_col cn) (map fst row)) as [H6 | H6];
    [| exists (ETc_col cn); rewrite (getitem_absent _ _ H6); simpl; auto 9].
  exfalso. apply Hmiss.
  simpl in Hreq.
  destruct Hreq as [<- | [<- | [<- | [<- | [<- | [<- | []]]]]]]; assumption.
Qed.

Lemma iterrows_nonempty (df : DataFrame) :
  (0 < nrows df)%nat ->
  exists rest, iterrows df = row_at df 0 :: rest.
Proof.
  intros Hn. unfold iterrows. destruct (nrows df) as [| n]; [lia |].
  simpl. eexists. reflexivity.
Qed.

(** C9, as stated, fails: a table without the [RH] column and without
    rows is read, no error is raised, and a table is written. *)
Lemma missing_column_empty_table_is_written :
  let df := mkDataFrame 0
              [("R_nir", []); ("R_red", []); ("T_target", []);
               ("Air Temp", []); ("ETc", [])]%string in
  well_formed df /\
  In "RH"%string (required default_colnames) /\
  ~ In "RH"%string (names df) /\
  run_CWSI_ETa_model df default_colnames
  = ret (mkDataFrame 0 (columns df ++ result_columns empty_lists)).
Proof.
  cbv zeta. split; [| split; [| split]].
  - split.
    + unfold names; simpl.
      repeat (constructor; [simpl; intuition discriminate |]). constructor.
    + repeat constructor.
  - simpl. auto.
  - unfold names; simpl. intuition discriminate.
  - reflexivity.
Qed.

(** C9, amended: when a required column is missing and the table has at
    least one row, the run ends with a [KeyError] for a missing required
    column, raised while the first row's arguments are read: no warning
    has been emitted and nothing is written. *)
Theorem run_missing_column_raises (df : DataFrame) (cn : colnames) :
  (0 < nrows df)%nat ->
  (exists c, In c (required cn) /\ ~ In c (names df)) ->
  exists c, In c (required cn) /\ ~ In c (names df) /\
            process_row cn (row_at df 0) = raise (KeyError c) /\
            run_CWSI_ETa_model df cn = raise (KeyError c).
Proof.
  intros Hn Hmiss.
  destruct (iterrows_nonempty df Hn) as [rest Hrows].
  rewrite <- (row_at_names df 0) in Hmiss.
  destruct (process_row_missing cn (row_at df 0) Hmiss) as [c [Hreq [Hc Hrow]]].
  rewrite row_at_names in Hc.
  exists c. split; [exact Hreq |]. split; [exact Hc |]. split; [exact Hrow |].
  rewrite run_CWSI_ETa_model_unfold, Hrows. simpl. rewrite Hrow. reflexivity.
Qed.

Lemma run_missing_column_raises_witness :
  let df := mkDataFrame 1
              [("R_nir", [0.6]); ("R_red", [0.1]); ("T_target", [30]);
               ("Air Temp", [25]); ("ETc", [5])]%string in
  exists c, In c (required default_colnames) /\ ~ In c (names df) /\
            process_row default_colnames (row_at df 0) = raise (KeyError c) /\
            run_CWSI_ETa_model df default_colnames = raise (KeyError c).
Proof.
  cbv zeta. apply run_missing_column_raises.
  - simpl. lia.
  - exists "RH"%string. split.
    + simpl. auto.
    + unfold names; simpl. intuition discriminate.
Defined.

(** *** The loop and the eleven assignments *)

Lemma fold_append_outputs (outs : list outputs) (l : lists) :
  fold_left append_outputs outs l
  = mkLists (NDVI_list l ++ map out_NDVI outs)
            (NDVI_scaled_list l ++ map out_NDVI_scaled outs)
            (Fr_list l ++ map out_Fr outs)
            (emissivity_list l ++ map out_emissivity outs)
            (T_target_list l ++ map out_T_target outs)
            (vpd_list l ++ map out_vpd outs)
            (vpg_list l ++ map out_vpg outs)
            (dTmin_list l ++ map out_dTmin outs)
            (dTmax_list l ++ map out_dTmax outs)
            (cwsi_list l ++ map out_cwsi outs)
            (ETa_list l ++ map out_ETa outs).
Proof.
  revert l. induction outs as [| o outs IH]; intros l; simpl.
  - rewrite !app_nil_r. destruct l; reflexivity.
  - rewrite IH.
    destruct o as [[[[[[[[[[[[NDVI NDVI_scaled] Fr] eps] T_target] esat] ea]
                         VPD] VPG] dTmin] dTmax] CWSI] ETa].
    simpl. rewrite <- !app_assoc. reflexivity.
Qed.

Lemma returned_of_outcome (m : M outputs) (o : outputs) :
  outcome m = Ok o -> returned m = o.
Proof. intros H. unfold returned. rewrite H. reflexivity. Qed.

(** When every row is processed without an exception, the loop ends with
    the rows' results appended in row order. *)
Lemma loop_defined (cn : colnames) (rows : list Series) (l : lists) :
  (forall row, In row rows -> exists o, outcome (process_row cn row) = Ok o) ->
  outcome (loop cn rows l)
  = Ok (fold_left append_outputs
          (map (fun row => returned (process_row cn row)) rows) l).
Proof.
  revert l. induction rows as [| row rest IH]; intros l Hrows; simpl.
  - reflexivity.
  - destruct (Hrows row (or_introl eq_refl)) as [o Ho].
    apply outcome_bind_Ok. exists o. split; [exact Ho |].
    rewrite (returned_of_outcome _ _ Ho).
    apply IH. intros r Hr. apply Hrows. right. exact Hr.
Qed.

Lemma replace_column_absent (cols : list (string * list R)) (name : string)
  (values : list R) :
  ~ In name (map fst cols) -> replace_column cols name values = None.
Proof.
  induction cols as [| [k v] rest IH]; intros Hnot; simpl.
  - reflexivity.
  - destruct (String.eqb k name) eqn:E.
    + apply String.eqb_eq in E. exfalso. apply Hnot. left. exact E.
    + rewrite IH; [reflexivity |]. intros Hin. apply Hnot. right. exact Hin.
Qed.

Lemma loc_set_append (n : nat) (cols extra : list (string * list R))
  (name : string) (values : list R) :
  length values = n ->
  ~ In name (map fst (cols ++ extra)) ->
  loc_set (mkDataFrame n (cols ++ extra)) name values
  = ret (mkDataFrame n (cols ++ extra ++ [(name, values)])).
Proof.
  intros Hlen Hnot. unfold loc_set. simpl.
  rewrite Hlen, Nat.eqb_refl, (replace_column_absent _ _ _ Hnot).
  rewrite <- app_assoc. reflexivity.
Qed.

Ltac fresh_name Hfresh :=
  rewrite map_app; intros Hin; apply in_app_or in Hin;
  destruct Hin as [Hin | Hin];
  [ revert Hin; apply Hfresh; simpl; auto 20
  | simpl in Hin; intuition discriminate ].

Lemma assign_results_fresh (df : DataFrame) (l : lists) :
  Forall (fun c => length (snd c) = nrows df) (result_columns l) ->
  (forall name, In name result_names -> ~ In name (names df)) ->
  assign_results df l
  = ret (mkDataFrame (nrows df) (columns df ++ result_columns l)).
Proof.
  intros Hlen Hfresh. destruct df as [n cols].
  unfold names in Hfresh. unfold result_columns in Hlen. simpl in *.
  repeat match goal with
         | H : Forall _ (_ :: _) |- _ =>
             apply Forall_cons_iff in H; destruct H as [? H]
         end.
  simpl in *. unfold assign_results.
  rewrite <- (app_nil_r cols) at 1.
  do 11 (rewrite loc_set_append;
         [rewrite bind_ret_l; cbv beta | assumption | fresh_name Hfresh]).
  rewrite app_nil_l. reflexivity.
Qed.

Lemma nth_map_seq {A} (h : nat -> A) (d : A) (n i : nat) :
  (i < n)%nat -> nth i (map h (seq 0 n)) d = h i.
Proof.
  intros Hi.
  rewrite (nth_indep _ d (h 0%nat)) by (rewrite length_map, length_seq; exact Hi).
  rewrite map_nth, seq_nth by exact Hi. reflexivity.
Qed.

Lemma nth_map_component (f : outputs -> R) (outs : list outputs) (i : nat) :
  f zero_outputs = 0 -> nth i (map f outs) 0 = f (nth i outs zero_outputs).
Proof. intros <-. apply map_nth. Qed.

Lemma process_row_cells (cn : colnames) (row : Series)
  (Nir Red T_sensor RH Ta ETc : R) :
  getitem row (Nir_col cn) = ret Nir ->
  getitem row (Red_col cn) = ret Red ->
  getitem row (T_sensor_col cn) = ret T_sensor ->
  getitem row (RH_col cn) = ret RH ->
  getitem row (Ta_col cn) = ret Ta ->
  getitem row (ETc_col cn) = ret ETc ->
  process_row cn row = calc_CWSI_ETa Nir Red T_sensor RH Ta ETc.
Proof.
  intros H1 H2 H3 H4 H5 H6. unfold process_row.
  rewrite H1, bind_ret_l, H2, bind_ret_l, H3, bind_ret_l, H4, bind_ret_l,
    H5, bind_ret_l, H6, bind_ret_l.
  reflexivity.
Qed.

Lemma loop_lists_lengths (df : DataFrame) (cn : colnames) :
  Forall (fun c => length (snd c) = nrows df)
    (result_columns
       (fold_left append_outputs
          (map (fun row => returned (process_row cn row)) (iterrows df))
          empty_lists)).
Proof.
  rewrite fold_append_outputs. unfold result_columns, iterrows. simpl.
  repeat (apply Forall_cons;
          [simpl; rewrite !length_map, length_seq; reflexivity |]).
  apply Forall_nil.
Qed.

Lemma result_columns_names (l : lists) :
  map fst (result_columns l) = result_names.
Proof. reflexivity. Qed.

Lemma result_row (outs : list outputs) (i : nat) :
  map (fun c => (fst c, nth i (snd c) 0))
    (result_columns (fold_left append_outputs outs empty_lists))
  = result_cells (nth i outs zero_outputs).
Proof.
  rewrite fold_append_outputs. unfold result_columns, result_cells. simpl.
  rewrite !nth_map_component by reflexivity. reflexivity.
Qed.

(** C3, as stated, fails: a table that already has a column [NDVI] gets
    that column overwritten, and only ten columns are appended. *)
Lemma existing_result_column_is_overwritten :
  let df := mkDataFrame 1
              [("R_nir", [0.6]); ("R_red", [0.1]); ("T_target", [30]);
               ("RH", [50]); ("Air Temp", [25]); ("ETc", [5]);
               ("NDVI", [0])]%string in
  well_formed df /\
  exists out,
    outcome (run_CWSI_ETa_model df default_colnames) = Ok out /\
    length (columns out) = (length (columns df) + 10)%nat /\
    nth 6 (columns df) (""%string, []) = ("NDVI"%string, [0]) /\
    nth 6 (columns out) (""%string, [])
    = ("NDVI"%string, [(0.6 - 0.1) / (0.6 + 0.1)]) /\
    (0.6 - 0.1) / (0.6 + 0.1) <> 0.
Proof.
  cbv zeta. split.
  - split.
    + unfold names; simpl.
      repeat (constructor; [simpl; intuition discriminate |]). constructor.
    + repeat constructor.
  - destruct (calc_CWSI_ETa_defined 0.6 0.1 30 50 25 5) as [o Ho];
      [lra | simpl; lra | lra | lra |].
    pose proof (calc_CWSI_ETa_sound _ _ _ _ _ _ _ Ho) as Hst.
    destruct o as [[[[[[[[[[[[NDVI NDVI_scaled] Fr] eps] T_target] esat] ea]
                         VPD] VPG] dTmin] dTmax] CWSI] ETa].
    destruct Hst as [HNDVI _].
    unfold calc_NDVI in HNDVI. rewrite pydiv_nonzero in HNDVI by lra.
    apply (proj1 (outcome_ret _ _)) in HNDVI. subst NDVI.
    exists (mkDataFrame 1
              [("R_nir", [0.6]); ("R_red", [0.1]); ("T_target", [30]);
               ("RH", [50]); ("Air Temp", [25]); ("ETc", [5]);
               ("NDVI", [(0.6 - 0.1) / (0.6 + 0.1)]);
               ("NDVI_scaled", [NDVI_scaled]); ("Fr", [Fr]);
               ("target_emissivity", [eps]); ("T_target_corr", [T_target]);
               ("VPD", [VPD]); ("VPG", [VPG]); ("dTmin", [dTmin]);
               ("dTmax", [dTmax]); ("CWSI", [CWSI]); ("ETa", [ETa])]%string).
    split; [| split; [reflexivity | split; [reflexivity | split;
                                             [reflexivity | lra]]]].
    rewrite run_CWSI_ETa_model_unfold.
    apply outcome_bind_Ok. eexists. split.
    + change (iterrows _) with
        [row_at (mkDataFrame 1
              [("R_nir", [0.6]); ("R_red", [0.1]); ("T_target", [30]);
               ("RH", [50]); ("Air Temp", [25]); ("ETc", [5]);
               ("NDVI", [0])]%string) 0].
      simpl loop. apply outcome_bind_Ok. eexists. split.
      * rewrite (process_row_cells _ _ 0.6 0.1 30 50 25 5)
          by reflexivity.
        exact Ho.
      * reflexivity.
    + reflexivity.
Qed.

(** C3, amended: when no result name is already a column of the input and
    every row is processed without an exception, the table written has
    the rows of the input, its columns unchanged and in place, followed
    by the eleven result columns in the fixed order; row [i] of the
    output is row [i] of the input followed by the results of
    [calc_CWSI_ETa] on the cells of that row. *)
Theorem run_appends_result_columns (df : DataFrame) (cn : colnames) :
  (forall name, In name result_names -> ~ In name (names df)) ->
  (forall i, (i < nrows df)%nat ->
             exists o, outcome (process_row cn (row_at df i)) = Ok o) ->
  exists out l,
    outcome (run_CWSI_ETa_model df cn) = Ok out /\
    nrows out = nrows df /\
    columns out = columns df ++ result_columns l /\
    names out = names df ++ result_names /\
    forall i, (i < nrows df)%nat ->
      exists o, outcome (process_row cn (row_at df i)) = Ok o /\
                row_at out i = row_at df i ++ result_cells o.
Proof.
  intros Hfresh Hrows.
  set (outs := map (fun row => returned (process_row cn row)) (iterrows df)).
  set (l := fold_left append_outputs outs empty_lists).
  exists (mkDataFrame (nrows df) (columns df ++ result_columns l)), l.
  split; [| split; [reflexivity | split; [reflexivity | split]]].
  - rewrite run_CWSI_ETa_model_unfold.
    apply outcome_bind_Ok. exists l. split.
    + apply loop_defined. intros row Hin. unfold iterrows in Hin.
      apply in_map_iff in Hin. destruct Hin as [i [<- Hi]].
      apply in_seq in Hi. apply Hrows. lia.
    + rewrite assign_results_fresh;
        [reflexivity | apply loop_lists_lengths | exact Hfresh].
  - unfold names. simpl. rewrite map_app. reflexivity.
  - intros i Hi. destruct (Hrows i Hi) as [o Ho].
    exists o. split; [exact Ho |].
    unfold row_at at 1. simpl columns. rewrite map_app.
    f_equal. unfold l. rewrite result_row. f_equal.
    unfold outs, iterrows. rewrite map_map.
    rewrite nth_map_seq by exact Hi.
    apply returned_of_outcome. exact Ho.
Qed.

Lemma run_appends_result_columns_witness :
  let df := mkDataFrame 1
              [("R_nir", [0.6]); ("R_red", [0.1]); ("T_target", [30]);
               ("RH", [50]); ("Air Temp", [25]); ("ETc", [5])]%string in
  exists out l,
    outcome (run_CWSI_ETa_model df default_colnames) = Ok out /\
    nrows out = nrows df /\
    columns out = columns df ++ result_columns l /\
    names out = names df ++ result_names /\
    forall i, (i < nrows df)%nat ->
      exists o, outcome (process_row default_colnames (row_at df i)) = Ok o /\
                row_at out i = row_at df i ++ result_cells o.
Proof.
  cbv zeta. apply run_appends_result_columns.
  - unfold names; simpl. intros name Hin. intuition (subst; discriminate).
  - intros i Hi. simpl in Hi. assert (i = 0%nat) as -> by lia.
    rewrite (process_row_cells _ _ 0.6 0.1 30 50 25 5) by reflexivity.
    apply calc_CWSI_ETa_defined; [lra | simpl; lra | lra | lra].
Defined.

(** * Further properties of the stages *)

(** ** NDVI and its scaling *)

Lemma calc_NDVI_common_factor (k Nir Red : R) :
  k <> 0 -> calc_NDVI (k * Nir) (k * Red) = calc_NDVI Nir Red.
Proof.
  intros Hk. unfold calc_NDVI.
  destruct (Req_dec_T (Nir + Red) 0) as [Hz | Hnz].
  - rewrite (pydiv_zero _ (Nir + Red) Hz).
    apply pydiv_zero. replace (k * Nir + k * Red) with (k * (Nir + Red)) by ring.
    rewrite Hz. ring.
  - assert (Hk' : k * Nir + k * Red <> 0).
    { replace (k * Nir + k * Red) with (k * (Nir + Red)) by ring.
      apply Rmult_integral_contrapositive. split; assumption. }
    rewrite (pydiv_nonzero _ _ Hnz), (pydiv_nonzero _ _ Hk').
    f_equal. field. split; assumption.
Qed.

(** X1: a common non-zero factor on both bands does not change what
    [calc_NDVI] does, value or failure, and so does not change anything
    [calc_CWSI_ETa] does. *)
Theorem calc_NDVI_scale_invariant (k Nir Red : R) :
  k <> 0 ->
  calc_NDVI (k * Nir) (k * Red) = calc_NDVI Nir Red /\
  forall T_sensor RH Ta ETc,
    calc_CWSI_ETa (k * Nir) (k * Red) T_sensor RH Ta ETc
    = calc_CWSI_ETa Nir Red T_sensor RH Ta ETc.
Proof.
  intros Hk. split; [apply calc_NDVI_common_factor; exact Hk |].
  intros T_sensor RH Ta ETc. unfold calc_CWSI_ETa.
  rewrite (calc_NDVI_common_factor k Nir Red Hk). reflexivity.
Qed.

Lemma calc_NDVI_scale_invariant_witness :
  calc_NDVI (100 * 0.6) (100 * 0.1) = calc_NDVI 0.6 0.1 /\
  forall T_sensor RH Ta ETc,
    calc_CWSI_ETa (100 * 0.6) (100 * 0.1) T_sensor RH Ta ETc
    = calc_CWSI_ETa 0.6 0.1 T_sensor RH Ta ETc.
Proof. apply (calc_NDVI_scale_invariant 100 0.6 0.1). lra. Defined.

(** X2: with [NDVI_min < NDVI_max], [scale_NDVI] sends [NDVI_min] to 0,
    [NDVI_max] to 1 and everything between them into [[0, 1]]. *)
Theorem scale_NDVI_unit_interval (NDVI NDVI_max NDVI_min : R) :
  NDVI_min < NDVI_max ->
  exists s,
    scale_NDVI NDVI NDVI_max NDVI_min = ret s /\
    (NDVI_min <= NDVI <= NDVI_max <-> 0 <= s <= 1) /\
    (NDVI = NDVI_min <-> s = 0) /\
    (NDVI = NDVI_max <-> s = 1).
Proof.
  intros Hlt.
  assert (Hd : NDVI_max - NDVI_min <> 0) by lra.
  assert (Hpos : 0 < NDVI_max - NDVI_min) by lra.
  exists ((NDVI - NDVI_min) / (NDVI_max - NDVI_min)).
  split.
  { unfold scale_NDVI. rewrite (pydiv_nonzero _ _ Hd). apply bind_ret_l. }
  set (s := (NDVI - NDVI_min) / (NDVI_max - NDVI_min)).
  assert (Hs : s * (NDVI_max - NDVI_min) = NDVI - NDVI_min).
  { unfold s. field. exact Hd. }
  split; [| split]; split; intros H; try nra.
Qed.

Lemma scale_NDVI_unit_interval_witness :
  exists s,
    scale_NDVI 0.5 0.90 0.15 = ret s /\
    (0.15 <= 0.5 <= 0.90 <-> 0 <= s <= 1) /\
    (0.5 = 0.15 <-> s = 0) /\
    (0.5 = 0.90 <-> s = 1).
Proof. apply (scale_NDVI_unit_interval 0.5 0.90 0.15). lra. Defined.

(** ** Fractional cover *)

(** X3: [fractional_veg_cover] returns the plain square without a warning
    exactly on [[-1, 1]]. *)
Theorem fractional_veg_cover_quiet_iff (s : R) :
  fractional_veg_cover s = ret (s ^ 2) <-> -1 <= s <= 1.
Proof.
  rewrite fractional_veg_cover_eq.
  destruct (Rgt_dec (s ^ 2) 1) as [Hgt | Hle]; split.
  - unfold ret. intros [=].
  - intros Hs. exfalso. nra.
  - intros _. nra.
  - intros _. reflexivity.
Qed.

(** X4: scaled with the defaults 0.90 and 0.15, an NDVI value passes
    through [fractional_veg_cover] without a warning exactly when it lies
    in [[-0.60, 0.90]]. *)
Theorem default_scaling_warns_iff (NDVI : R) :
  exists s,
    scale_NDVI NDVI 0.90 0.15 = ret s /\
    (warnings_of (fractional_veg_cover s) = [] <-> -0.60 <= NDVI <= 0.90) /\
    (warnings_of (fractional_veg_cover s) = [FrGreaterThan1 (s ^ 2)] <->
     NDVI < -0.60 \/ 0.90 < NDVI).
Proof.
  exists ((NDVI - 0.15) / (0.90 - 0.15)).
  split.
  { unfold scale_NDVI. rewrite pydiv_nonzero by lra. apply bind_ret_l. }
  set (s := (NDVI - 0.15) / (0.90 - 0.15)).
  assert (Hs : s * 0.75 = NDVI - 0.15).
  { unfold s. replace (0.90 - 0.15) with 0.75 by lra. field. lra. }
  rewrite fractional_veg_cover_eq.
  destruct (Rgt_dec (s ^ 2) 1) as [Hgt | Hle]; cbn; split; split.
  - discriminate.
  - intros H. exfalso. nra.
  - intros _. destruct (Rle_dec s 0); [left | right]; nra.
  - reflexivity.
  - intros _. nra.
  - reflexivity.
  - discriminate.
  - intros [H | H]; exfalso; nra.
Qed.

(** ** Emissivity and the corrected target temperature *)

(** X5: for a cover fraction in [[0, 1]] and [soil <= veg], the target
    emissivity lies between the two, is the soil value at [Fr = 0] and
    the vegetation value at [Fr = 1]. *)
Theorem calc_target_emissivity_between (Fr veg_emissivity soil_emissivity : R) :
  0 <= Fr <= 1 -> soil_emissivity <= veg_emissivity ->
  exists eps,
    calc_target_emissivity Fr veg_emissivity soil_emissivity = ret eps /\
    soil_emissivity <= eps <= veg_emissivity /\
    (Fr = 0 -> eps = soil_emissivity) /\
    (Fr = 1 -> eps = veg_emissivity).
Proof.
  intros HFr Hle.
  exists (Fr * veg_emissivity + (1 - Fr) * soil_emissivity).
  split; [reflexivity |]. split; [nra |]. split; intros ->; ring.
Qed.

Lemma calc_target_emissivity_between_witness :
  exists eps,
    calc_target_emissivity 0.5 0.98 0.93 = ret eps /\
    0.93 <= eps <= 0.98 /\
    (0.5 = 0 -> eps = 0.93) /\
    (0.5 = 1 -> eps = 0.98).
Proof. apply (calc_target_emissivity_between 0.5 0.98 0.93); lra. Defined.

Lemma root4_nonneg (x : R) : 0 <= root4 x.
Proof. unfold root4. apply sqrt_pos. Qed.

Lemma root4_pow4 (x : R) : 0 <= x -> root4 x ^ 4 = x.
Proof.
  intros Hx. unfold root4.
  replace (sqrt (sqrt x) ^ 4) with ((sqrt (sqrt x) ^ 2) ^ 2) by ring.
  rewrite pow2_sqrt by apply sqrt_pos.
  apply pow2_sqrt. exact Hx.
Qed.

Lemma root4_of_pow4 (x : R) : root4 (x ^ 4) = Rabs x.
Proof.
  unfold root4.
  replace (x ^ 4) with ((x ^ 2) ^ 2) by ring.
  rewrite sqrt_pow2 by apply pow2_ge_0.
  replace (x ^ 2) with (Rsqr x) by (unfold Rsqr; ring).
  apply sqrt_Rsqr_abs.
Qed.

Lemma adj_target_T_defined_inv (T_sensor eps T_background T_target : R) :
  outcome (adj_target_T T_sensor eps T_background) = Ok T_target ->
  eps <> 0 /\
  0 <= T_target /\
  T_sensor ^ 4 = eps * T_target ^ 4 + (1 - eps) * T_background ^ 4.
Proof.
  unfold adj_target_T, pydiv. intros H.
  destruct (Req_dec_T eps 0) as [Hz | Hnz]; [discriminate H |].
  rewrite bind_ret_l in H. unfold pow_quarter in H.
  destruct (Rlt_dec ((T_sensor ^ 4 - (1 - eps) * T_background ^ 4) / eps) 0)
    as [Hneg | Hnn]; [discriminate H |].
  rewrite !bind_ret_l in H. apply (proj1 (outcome_ret _ _)) in H. subst T_target.
  split; [exact Hnz |]. split; [apply root4_nonneg |].
  rewrite root4_pow4 by lra. field. exact Hnz.
Qed.

(** X6: whenever [adj_target_T] returns, the emissivity is not zero, the
    returned temperature is not negative, and it balances the radiance
    equation [T_sensor^4 = eps * T_target^4 + (1 - eps) * T_background^4]. *)
Theorem adj_target_T_balances (T_sensor eps T_background T_target : R) :
  outcome (adj_target_T T_sensor eps T_background) = Ok T_target ->
  eps <> 0 /\
  0 <= T_target /\
  T_sensor ^ 4 = eps * T_target ^ 4 + (1 - eps) * T_background ^ 4.
Proof. apply adj_target_T_defined_inv. Qed.

Lemma adj_target_T_balances_witness :
  1 <> 0 /\
  0 <= root4 ((30 ^ 4 - (1 - 1) * (-15) ^ 4) / 1) /\
  30 ^ 4 = 1 * root4 ((30 ^ 4 - (1 - 1) * (-15) ^ 4) / 1) ^ 4
           + (1 - 1) * (-15) ^ 4.
Proof.
  apply (adj_target_T_balances 30 1 (-15)).
  unfold adj_target_T. rewrite pydiv_nonzero by lra. rewrite bind_ret_l.
  rewrite pow_quarter_nonneg by (simpl; lra). rewrite bind_ret_l.
  reflexivity.
Defined.

(** X7: with a positive emissivity, [adj_target_T] ends in the
    negative-base failure exactly when the sensor's fourth power falls
    short of the background share, [T_sensor^4 < (1 - eps) * T_background^4];
    a sensor reading of 0 degrees with the default background is such a
    case. *)
Theorem adj_target_T_negative_base_iff (T_sensor eps T_background : R) :
  0 < eps ->
  (outcome (adj_target_T T_sensor eps T_background) = Err NegativeBase <->
   T_sensor ^ 4 < (1 - eps) * T_background ^ 4) /\
  (forall e, outcome (adj_target_T T_sensor eps T_background) = Err e ->
             e = NegativeBase).
Proof.
  intros He. unfold adj_target_T.
  rewrite pydiv_nonzero by lra. rewrite bind_ret_l.
  set (q := (T_sensor ^ 4 - (1 - eps) * T_background ^ 4) / eps).
  assert (Hq : q * eps = T_sensor ^ 4 - (1 - eps) * T_background ^ 4).
  { unfold q. field. lra. }
  unfold pow_quarter. destruct (Rlt_dec q 0) as [Hneg | Hnn]; cbn.
  - split; [split; [intros _; nra | reflexivity] |].
    intros e [= <-]. reflexivity.
  - split; [split; [discriminate | intros H; exfalso; nra] |].
    intros e [=].
Qed.

Lemma adj_target_T_negative_base_iff_witness :
  (outcome (adj_target_T 0 0.95 (-15)) = Err NegativeBase <->
   0 ^ 4 < (1 - 0.95) * (-15) ^ 4) /\
  (forall e, outcome (adj_target_T 0 0.95 (-15)) = Err e -> e = NegativeBase).
Proof. apply (adj_target_T_negative_base_iff 0 0.95 (-15)). lra. Defined.

(** X8: [adj_target_T] does not see the signs of its temperatures, and
    with emissivity 1 it returns the absolute value of the sensor
    reading: a reading below zero comes back positive. *)
Theorem adj_target_T_loses_sign (T_sensor eps T_background : R) :
  adj_target_T (- T_sensor) eps T_background
  = adj_target_T T_sensor eps T_background /\
  adj_target_T T_sensor eps (- T_background)
  = adj_target_T T_sensor eps T_background /\
  adj_target_T T_sensor 1 T_background = ret (Rabs T_sensor).
Proof.
  split; [| split].
  - unfold adj_target_T.
    replace ((- T_sensor) ^ 4) with (T_sensor ^ 4) by ring. reflexivity.
  - unfold adj_target_T.
    replace ((- T_background) ^ 4) with (T_background ^ 4) by ring. reflexivity.
  - unfold adj_target_T. rewrite pydiv_nonzero by lra. rewrite bind_ret_l.
    replace ((T_sensor ^ 4 - (1 - 1) * T_background ^ 4) / 1)
      with (T_sensor ^ 4) by (field).
    rewrite pow_quarter_nonneg, bind_ret_l.
    + rewrite root4_of_pow4. reflexivity.
    + replace (T_sensor ^ 4) with ((T_sensor ^ 2) ^ 2) by ring.
      apply pow2_ge_0.
Qed.

(** ** Vapour pressure *)

(** X9: [calc_esat] fails exactly at the pole [T = -237.3]; wherever it
    returns, the pressure is strictly positive; at 0 degrees it is the
    leading constant 0.6108. *)
Theorem calc_esat_fails_iff_pole (T : R) :
  (forall e, outcome (calc_esat T) = Err e <->
             T = -237.3 /\ e = ZeroDivisionError) /\
  (forall esat, outcome (calc_esat T) = Ok esat -> 0 < esat) /\
  calc_esat 0 = ret 0.6108.
Proof.
  split; [| split].
  - intros e. destruct (Req_dec_T (T + 237.3) 0) as [Hz | Hnz].
    + rewrite (calc_esat_pole _ Hz). cbn. split.
      * intros [= <-]. split; [lra | reflexivity].
      * intros [_ ->]. reflexivity.
    + rewrite (calc_esat_defined _ Hnz). cbn. split.
      * discriminate.
      * intros [Hz _]. lra.
  - intros esat H. destruct (Req_dec_T (T + 237.3) 0) as [Hz | Hnz].
    + rewrite (calc_esat_pole _ Hz) in H. discriminate H.
    + rewrite (calc_esat_defined _ Hnz) in H.
      apply (proj1 (outcome_ret _ _)) in H. subst esat. apply tetens_pos.
  - rewrite calc_esat_defined by lra. f_equal. unfold tetens.
    replace (17.27 * 0 / (0 + 237.3)) with 0 by (field; lra).
    rewrite exp_0. ring.
Qed.

(** X10: away from the pole and for a relative humidity in [[0, 100]], the
    actual vapour pressure lies between 0 and saturation, and the deficit
    between 0 and saturation; saturated air (100) has no deficit, dry air
    (0) has the full one. *)
Theorem calc_ea_VPD_range (T RH : R) :
  T <> -237.3 -> 0 <= RH <= 100 ->
  exists esat ea VPD,
    calc_esat T = ret esat /\
    calc_ea T RH = ret ea /\
    calc_VPD esat ea = ret VPD /\
    0 <= ea <= esat /\
    0 <= VPD <= esat /\
    (RH = 100 <-> VPD = 0) /\
    (RH = 0 <-> VPD = esat).
Proof.
  intros HT HRH.
  assert (Hnz : T + 237.3 <> 0) by lra.
  pose proof (tetens_pos T) as Hp.
  exists (tetens T), (RH * tetens T / 100), (tetens T - RH * tetens T / 100).
  split; [apply calc_esat_defined; exact Hnz |].
  split; [apply calc_ea_defined; exact Hnz |].
  split; [reflexivity |].
  repeat split; intros; nra.
Qed.

Lemma calc_ea_VPD_range_witness :
  exists esat ea VPD,
    calc_esat 25 = ret esat /\
    calc_ea 25 50 = ret ea /\
    calc_VPD esat ea = ret VPD /\
    0 <= ea <= esat /\
    0 <= VPD <= esat /\
    (50 = 100 <-> VPD = 0) /\
    (50 = 0 <-> VPD = esat).
Proof. apply (calc_ea_VPD_range 25 50); lra. Defined.

(** X11: the relative humidity is not validated: above 100 the deficit is
    negative and [calc_idso_dTmin] exceeds its intercept 3.11. *)
Theorem supersaturation_gives_negative_VPD (T RH : R) :
  T <> -237.3 -> 100 < RH ->
  exists esat ea VPD dTmin,
    calc_esat T = ret esat /\
    calc_ea T RH = ret ea /\
    calc_VPD esat ea = ret VPD /\
    calc_idso_dTmin VPD = ret dTmin /\
    VPD < 0 /\ 3.11 < dTmin.
Proof.
  intros HT HRH.
  assert (Hnz : T + 237.3 <> 0) by lra.
  pose proof (tetens_pos T) as Hp.
  exists (tetens T), (RH * tetens T / 100), (tetens T - RH * tetens T / 100),
         (3.11 - 1.97 * (tetens T - RH * tetens T / 100)).
  split; [apply calc_esat_defined; exact Hnz |].
  split; [apply calc_ea_defined; exact Hnz |].
  split; [reflexivity |]. split; [reflexivity |].
  assert (Hneg : tetens T - RH * tetens T / 100 < 0) by nra.
  split; lra.
Qed.

Lemma supersaturation_gives_negative_VPD_witness :
  exists esat ea VPD dTmin,
    calc_esat 25 = ret esat /\
    calc_ea 25 120 = ret ea /\
    calc_VPD esat ea = ret VPD /\
    calc_idso_dTmin VPD = ret dTmin /\
    VPD < 0 /\ 3.11 < dTmin.
Proof. apply (supersaturation_gives_negative_VPD 25 120); lra. Defined.

(** X12: [calc_VPG] fails exactly when the shifted temperature hits the
    pole, [T = -240.41], whatever [esat] is passed. *)
Theorem calc_VPG_fails_iff (esat T : R) (e : error) :
  outcome (calc_VPG esat T) = Err e <->
  T = -240.41 /\ e = ZeroDivisionError.
Proof.
  unfold calc_VPG.
  destruct (Req_dec_T (T + 3.11 + 237.3) 0) as [Hz | Hnz].
  - rewrite (calc_esat_pole _ Hz). cbn. split.
    + intros [= <-]. split; [lra | reflexivity].
    + intros [_ ->]. reflexivity.
  - rewrite (calc_esat_defined _ Hnz), bind_ret_l. cbn. split.
    + discriminate.
    + intros [Hz _]. lra.
Qed.

(** X13: between the two poles, [-240.41 < T < -237.3], the gradient
    [calc_VPG (calc_esat T) T] is strictly positive and [calc_idso_dTmax]
    falls below its intercept 3.11. *)
Theorem calc_VPG_positive_between_poles (T : R) :
  -240.41 < T < -237.3 ->
  exists esat VPG dTmax,
    calc_esat T = ret esat /\
    calc_VPG esat T = ret VPG /\
    calc_idso_dTmax VPG = ret dTmax /\
    0 < VPG /\ dTmax < 3.11.
Proof.
  intros HT.
  exists (tetens T), (tetens T - tetens (T + 3.11)),
         (3.11 - 1.97 * (tetens T - tetens (T + 3.11))).
  split; [apply calc_esat_defined; lra |].
  split; [apply calc_VPG_defined; lra |].
  split; [reflexivity |].
  assert (H : tetens (T + 3.11) < tetens T)
    by (apply tetens_across_pole; lra).
  split; lra.
Qed.

Lemma calc_VPG_positive_between_poles_witness :
  exists esat VPG dTmax,
    calc_esat (-239) = ret esat /\
    calc_VPG esat (-239) = ret VPG /\
    calc_idso_dTmax VPG = ret dTmax /\
    0 < VPG /\ dTmax < 3.11.
Proof. apply (calc_VPG_positive_between_poles (-239)); lra. Defined.

(** ** Stress index and evapotranspiration *)

(** X14: with [dTmin < dTmax], [calc_CWSI] returns a value that is 0
    exactly at [T_target - Ta = dTmin], 1 exactly at [T_target - Ta = dTmax],
    and within [[0, 1]] exactly when the difference lies between the two
    bounds. *)
Theorem calc_CWSI_landmarks (dTmin dTmax Ta T_target : R) :
  dTmin < dTmax ->
  exists CWSI,
    calc_CWSI dTmin dTmax Ta T_target = ret CWSI /\
    (CWSI = 0 <-> T_target - Ta = dTmin) /\
    (CWSI = 1 <-> T_target - Ta = dTmax) /\
    (0 <= CWSI <= 1 <-> dTmin <= T_target - Ta <= dTmax).
Proof.
  intros Hlt.
  assert (Hd : dTmax - dTmin <> 0) by lra.
  exists ((T_target - Ta - dTmin) / (dTmax - dTmin)).
  split.
  { unfold calc_CWSI. rewrite (pydiv_nonzero _ _ Hd). apply bind_ret_l. }
  set (c := (T_target - Ta - dTmin) / (dTmax - dTmin)).
  assert (Hc : c * (dTmax - dTmin) = T_target - Ta - dTmin).
  { unfold c. field. exact Hd. }
  repeat split; intros; nra.
Qed.

Lemma calc_CWSI_landmarks_witness :
  exists CWSI,
    calc_CWSI 1 5 25 28 = ret CWSI /\
    (CWSI = 0 <-> 28 - 25 = 1) /\
    (CWSI = 1 <-> 28 - 25 = 5) /\
    (0 <= CWSI <= 1 <-> 1 <= 28 - 25 <= 5).
Proof. apply (calc_CWSI_landmarks 1 5 25 28). lra. Defined.

(** X15: with [dTmin < dTmax], a hotter target gives a strictly larger
    CWSI and, for a positive [ETc], a strictly smaller ETa. *)
Theorem hotter_target_lowers_ETa (dTmin dTmax Ta T1 T2 ETc : R) :
  dTmin < dTmax -> T1 < T2 -> 0 < ETc ->
  exists c1 c2 ETa1 ETa2,
    calc_CWSI dTmin dTmax Ta T1 = ret c1 /\
    calc_CWSI dTmin dTmax Ta T2 = ret c2 /\
    calc_ETa c1 ETc = ret ETa1 /\
    calc_ETa c2 ETc = ret ETa2 /\
    c1 < c2 /\ ETa2 < ETa1.
Proof.
  intros Hlt HT HE.
  assert (Hd : dTmax - dTmin <> 0) by lra.
  exists ((T1 - Ta - dTmin) / (dTmax - dTmin)),
         ((T2 - Ta - dTmin) / (dTmax - dTmin)),
         ((1 - (T1 - Ta - dTmin) / (dTmax - dTmin)) * ETc),
         ((1 - (T2 - Ta - dTmin) / (dTmax - dTmin)) * ETc).
  split; [unfold calc_CWSI; rewrite (pydiv_nonzero _ _ Hd); apply bind_ret_l |].
  split; [unfold calc_CWSI; rewrite (pydiv_nonzero _ _ Hd); apply bind_ret_l |].
  split; [reflexivity |]. split; [reflexivity |].
  assert (Hc : (T1 - Ta - dTmin) / (dTmax - dTmin)
               < (T2 - Ta - dTmin) / (dTmax - dTmin)).
  { apply Rmult_lt_compat_r; [apply Rinv_0_lt_compat; lra | lra]. }
  split; [exact Hc | nra].
Qed.

Lemma hotter_target_lowers_ETa_witness :
  exists c1 c2 ETa1 ETa2,
    calc_CWSI 1 5 25 27 = ret c1 /\
    calc_CWSI 1 5 25 29 = ret c2 /\
    calc_ETa c1 5 = ret ETa1 /\
    calc_ETa c2 5 = ret ETa2 /\
    c1 < c2 /\ ETa2 < ETa1.
Proof. apply (hotter_target_lowers_ETa 1 5 25 27 29 5); lra. Defined.

(** X16: [calc_ETa] does not clamp: for [ETc > 0] the result lies in
    [[0, ETc]] exactly when CWSI lies in [[0, 1]]; a CWSI above 1 gives a
    negative ETa and a CWSI below 0 gives more than [ETc]. *)
Theorem calc_ETa_unclamped (CWSI ETc : R) :
  0 < ETc ->
  exists ETa,
    calc_ETa CWSI ETc = ret ETa /\
    (0 <= ETa <= ETc <-> 0 <= CWSI <= 1) /\
    (ETa < 0 <-> 1 < CWSI) /\
    (ETc < ETa <-> CWSI < 0).
Proof.
  intros HE. exists ((1 - CWSI) * ETc).
  split; [reflexivity |].
  repeat split; intros; nra.
Qed.

Lemma calc_ETa_unclamped_witness :
  exists ETa,
    calc_ETa 1.5 5 = ret ETa /\
    (0 <= ETa <= 5 <-> 0 <= 1.5 <= 1) /\
    (ETa < 0 <-> 1 < 1.5) /\
    (5 < ETa <-> 1.5 < 0).
Proof. apply (calc_ETa_unclamped 1.5 5). lra. Defined.

(** ** The pipeline: warnings, failures and what it returns *)

Lemma warnings_of_bind {A B} (m : M A) (k : A -> M B) :
  warnings_of (bind m k)
  = warnings_of m ++ match outcome m with
                     | Ok a => warnings_of (k a)
                     | Err _ => []
                     end.
Proof.
  destruct m as [ws [a | e]]; unfold warnings_of, outcome; simpl.
  - destruct (k a) as [ws' r]. reflexivity.
  - rewrite app_nil_r. reflexivity.
Qed.

Lemma bind_quiet {A B} (m : M A) (k : A -> M B) :
  warnings_of m = [] -> (forall a, warnings_of (k a) = []) ->
  warnings_of (bind m k) = [].
Proof.
  intros Hm Hk. rewrite warnings_of_bind, Hm.
  destruct (outcome m); [apply Hk | reflexivity].
Qed.

Lemma pydiv_quiet (a b : R) : warnings_of (pydiv a b) = [].
Proof. unfold pydiv. destruct (Req_dec_T b 0); reflexivity. Qed.

Lemma pow_quarter_quiet (x : R) : warnings_of (pow_quarter x) = [].
Proof. unfold pow_quarter. destruct (Rlt_dec x 0); reflexivity. Qed.

Lemma calc_esat_quiet (T : R) : warnings_of (calc_esat T) = [].
Proof.
  unfold calc_esat. apply bind_quiet; [apply pydiv_quiet | reflexivity].
Qed.

Lemma after_cover_quiet (T_sensor RH Ta ETc NDVI NDVI_scaled Fr : R) :
  warnings_of
    (target_emissivity <- calc_target_emissivity Fr 0.98 0.93 ;;
     T_target <- adj_target_T T_sensor target_emissivity (-15) ;;
     esat <- calc_esat Ta ;;
     ea <- calc_ea Ta RH ;;
     vpd <- calc_VPD esat ea ;;
     vpg <- calc_VPG esat Ta ;;
     dTmin <- calc_idso_dTmin vpd ;;
     dTmax <- calc_idso_dTmax vpg ;;
     cwsi <- calc_CWSI dTmin dTmax Ta T_target ;;
     ETa <- calc_ETa cwsi ETc ;;
     ret (NDVI, NDVI_scaled, Fr, target_emissivity, T_target, esat, ea, vpd,
          vpg, dTmin, dTmax, cwsi, ETa)) = [].
Proof.
  apply bind_quiet; [reflexivity | intros eps].
  apply bind_quiet.
  { unfold adj_target_T. apply bind_quiet; [apply pydiv_quiet | intros q].
    apply bind_quiet; [apply pow_quarter_quiet | reflexivity]. }
  intros T_target.
  apply bind_quiet; [apply calc_esat_quiet | intros esat].
  apply bind_quiet.
  { unfold calc_ea. apply bind_quiet; [apply calc_esat_quiet | reflexivity]. }
  intros ea.
  apply bind_quiet; [reflexivity | intros vpd].
  apply bind_quiet.
  { unfold calc_VPG. apply bind_quiet; [apply calc_esat_quiet | reflexivity]. }
  intros vpg.
  apply bind_quiet; [reflexivity | intros dTmin].
  apply bind_quiet; [reflexivity | intros dTmax].
  apply bind_quiet.
  { unfold calc_CWSI. apply bind_quiet; [apply pydiv_quiet | reflexivity]. }
  intros cwsi.
  apply bind_quiet; [reflexivity | intros ETa]. reflexivity.
Qed.

(** The warnings of one pipeline call: none when the bands cancel, those
    of the cover stage otherwise, also when a later stage fails. *)
Lemma calc_CWSI_ETa_warnings_eq (Nir Red T_sensor RH Ta ETc : R) :
  warnings_of (calc_CWSI_ETa Nir Red T_sensor RH Ta ETc)
  = if Req_dec_T (Nir + Red) 0 then []
    else warnings_of
           (fractional_veg_cover
              (((Nir - Red) / (Nir + Red) - 0.15) / (0.90 - 0.15))).
Proof.
  unfold calc_CWSI_ETa, calc_NDVI.
  destruct (Req_dec_T (Nir + Red) 0) as [Hz | Hnz].
  - rewrite (pydiv_zero _ _ Hz). reflexivity.
  - rewrite (pydiv_nonzero _ _ Hnz), bind_ret_l.
    unfold scale_NDVI. rewrite pydiv_nonzero by lra. rewrite !bind_ret_l.
    rewrite warnings_of_bind.
    destruct (outcome (fractional_veg_cover _)) as [Fr | e].
    + rewrite after_cover_quiet. apply app_nil_r.
    + apply app_nil_r.
Qed.

(** X17: one call of [calc_CWSI_ETa] emits at most one warning, never the
    less-than-0 one; cancelling bands end it with [ZeroDivisionError]
    before anything is emitted, and otherwise its warnings are those of
    [fractional_veg_cover] on the scaled NDVI, whether or not a later
    stage fails. *)
Theorem calc_CWSI_ETa_warnings (Nir Red T_sensor RH Ta ETc : R) :
  (length (warnings_of (calc_CWSI_ETa Nir Red T_sensor RH Ta ETc)) <= 1)%nat /\
  (forall v, ~ In (FrLessThan0 v)
               (warnings_of (calc_CWSI_ETa Nir Red T_sensor RH Ta ETc))) /\
  (Nir + Red = 0 ->
   calc_CWSI_ETa Nir Red T_sensor RH Ta ETc = raise ZeroDivisionError) /\
  (Nir + Red <> 0 ->
   warnings_of (calc_CWSI_ETa Nir Red T_sensor RH Ta ETc)
   = warnings_of
       (fractional_veg_cover
          (((Nir - Red) / (Nir + Red) - 0.15) / (0.90 - 0.15)))).
Proof.
  rewrite calc_CWSI_ETa_warnings_eq.
  destruct (Req_dec_T (Nir + Red) 0) as [Hz | Hnz].
  - split; [simpl; lia |]. split; [intros v []|]. split.
    + intros _. unfold calc_CWSI_ETa, calc_NDVI.
      rewrite (pydiv_zero _ _ Hz). reflexivity.
    + intros H. contradiction.
  - rewrite fractional_veg_cover_eq.
    destruct (Rgt_dec _ 1); cbn.
    + split; [lia |]. split; [intros v [H | []]; discriminate |].
      split; [intros H; contradiction | reflexivity].
    + split; [lia |]. split; [intros v [] |].
      split; [intros H; contradiction | reflexivity].
Qed.

Lemma calc_esat_returned (T esat : R) :
  outcome (calc_esat T) = Ok esat -> T + 237.3 <> 0 /\ esat = tetens T.
Proof.
  intros H. destruct (Req_dec_T (T + 237.3) 0) as [Hz | Hnz].
  - rewrite (calc_esat_pole _ Hz) in H. discriminate H.
  - rewrite (calc_esat_defined _ Hnz) in H.
    apply (proj1 (outcome_ret _ _)) in H. split; [exact Hnz | congruence].
Qed.

Lemma pydiv_returned (a b q : R) :
  outcome (pydiv a b) = Ok q -> b <> 0 /\ q = a / b.
Proof.
  unfold pydiv. destruct (Req_dec_T b 0) as [Hz | Hnz]; cbn; intros H.
  - discriminate H.
  - split; [exact Hnz | congruence].
Qed.

(** What a returned tuple tells about the inputs and about itself. *)
Lemma calc_CWSI_ETa_returned (Nir Red T_sensor RH Ta ETc : R)
  (NDVI NDVI_scaled Fr eps T_target esat ea VPD VPG dTmin dTmax CWSI ETa : R) :
  outcome (calc_CWSI_ETa Nir Red T_sensor RH Ta ETc)
  = Ok (NDVI, NDVI_scaled, Fr, eps, T_target, esat, ea, VPD, VPG, dTmin, dTmax,
        CWSI, ETa) ->
  (Nir + Red <> 0 /\ Ta <> -237.3 /\ Ta <> -240.41 /\ dTmax <> dTmin) /\
  (NDVI = (Nir - Red) / (Nir + Red) /\
   NDVI_scaled = (NDVI - 0.15) / (0.90 - 0.15) /\
   Fr = Rmin (NDVI_scaled ^ 2) 1 /\
   eps = 0.93 + 0.05 * Fr) /\
  (0 <= Fr <= 1 /\ 0.93 <= eps <= 0.98 /\ 0 <= T_target /\ 0 < esat) /\
  (T_sensor ^ 4 = eps * T_target ^ 4 + (1 - eps) * (-15) ^ 4) /\
  (esat = tetens Ta /\ ea = RH * esat / 100 /\ VPD = esat - ea /\
   VPG = esat - tetens (Ta + 3.11) /\
   dTmin = 3.11 - 1.97 * VPD /\ dTmax = 3.11 - 1.97 * VPG) /\
  (CWSI = (T_target - Ta - dTmin) / (dTmax - dTmin) /\
   ETa = (1 - CWSI) * ETc).
Proof.
  intros H. apply calc_CWSI_ETa_sound in H. cbv beta iota delta [staged] in H.
  destruct H as (H1 & H2 & H3 & H4 & H5 & H6 & H7 & H8 & H9 & H10 & H11
                 & H12 & H13).
  unfold calc_NDVI in H1. apply pydiv_returned in H1. destruct H1 as [HN ->].
  unfold scale_NDVI, NDVI_max_default, NDVI_min_default in H2.
  rewrite pydiv_nonzero in H2 by lra. rewrite bind_ret_l in H2.
  apply (proj1 (outcome_ret _ _)) in H2. subst NDVI_scaled.
  rewrite fractional_veg_cover_outcome in H3.
  assert (HFrEq := f_equal (fun r => match r with Ok v => v | Err _ => Fr end) H3).
  cbv beta iota in HFrEq. clear H3. subst Fr.
  apply (proj1 (outcome_ret _ _)) in H4.
  unfold veg_emissivity_default, soil_emissivity_default in H4. subst eps.
  destruct (calc_esat_returned _ _ H6) as [HTa ->].
  rewrite calc_ea_defined in H7 by exact HTa.
  apply (proj1 (outcome_ret _ _)) in H7. subst ea.
  apply (proj1 (outcome_ret _ _)) in H8. subst VPD.
  assert (HTb : Ta + 3.11 + 237.3 <> 0).
  { intros Hz. unfold calc_VPG in H9. rewrite (calc_esat_pole _ Hz) in H9.
    discriminate H9. }
  rewrite calc_VPG_defined in H9 by exact HTb.
  apply (proj1 (outcome_ret _ _)) in H9. subst VPG.
  apply (proj1 (outcome_ret _ _)) in H10. subst dTmin.
  apply (proj1 (outcome_ret _ _)) in H11. subst dTmax.
  assert (Hd : 3.11 - 1.97 * (tetens Ta - tetens (Ta + 3.11))
               - (3.11 - 1.97 * (tetens Ta - RH * tetens Ta / 100)) <> 0).
  { intros Hz. unfold calc_CWSI in H12. rewrite (pydiv_zero _ _ Hz) in H12.
    discriminate H12. }
  unfold calc_CWSI in H12. rewrite (pydiv_nonzero _ _ Hd), bind_ret_l in H12.
  apply (proj1 (outcome_ret _ _)) in H12. subst CWSI.
  apply (proj1 (outcome_ret _ _)) in H13. subst ETa.
  unfold T_background_default in H5.
  destruct (adj_target_T_defined_inv _ _ _ _ H5) as (He & HT0 & Hbal).
  set (s := ((Nir - Red) / (Nir + Red) - 0.15) / (0.90 - 0.15)) in *.
  pose proof (Rmin_sqr_unit s) as HFr.
  pose proof (tetens_pos Ta) as Hp.
  split; [split; [exact HN | split; [lra | split; [lra | lra]]] |].
  split; [split; [reflexivity | split; [reflexivity | split;
                                         [reflexivity | lra]]] |].
  split; [split; [exact HFr | split; [lra | split; [exact HT0 | exact Hp]]] |].
  split; [exact Hbal |].
  split; [repeat split |].
  split; reflexivity.
Qed.

(** X18: a tuple returned by [calc_CWSI_ETa] tells that the bands do not
    cancel, that [Ta] is neither -237.3 nor -240.41 and that the two Idso
    bounds differ; its components are the closed forms of the formulas,
    with [Fr] in [[0, 1]], the emissivity [0.93 + 0.05 * Fr] in
    [[0.93, 0.98]], a non-negative target temperature that balances the
    radiance equation, and a positive saturation pressure. *)
Theorem calc_CWSI_ETa_returns_only_if (Nir Red T_sensor RH Ta ETc : R)
  (NDVI NDVI_scaled Fr eps T_target esat ea VPD VPG dTmin dTmax CWSI ETa : R) :
  outcome (calc_CWSI_ETa Nir Red T_sensor RH Ta ETc)
  = Ok (NDVI, NDVI_scaled, Fr, eps, T_target, esat, ea, VPD, VPG, dTmin, dTmax,
        CWSI, ETa) ->
  (Nir + Red <> 0 /\ Ta <> -237.3 /\ Ta <> -240.41 /\ dTmax <> dTmin) /\
  (NDVI = (Nir - Red) / (Nir + Red) /\
   NDVI_scaled = (NDVI - 0.15) / (0.90 - 0.15) /\
   Fr = Rmin (NDVI_scaled ^ 2) 1 /\
   eps = 0.93 + 0.05 * Fr) /\
  (0 <= Fr <= 1 /\ 0.93 <= eps <= 0.98 /\ 0 <= T_target /\ 0 < esat) /\
  (T_sensor ^ 4 = eps * T_target ^ 4 + (1 - eps) * (-15) ^ 4) /\
  (esat = tetens Ta /\ ea = RH * esat / 100 /\ VPD = esat - ea /\
   VPG = esat - tetens (Ta + 3.11) /\
   dTmin = 3.11 - 1.97 * VPD /\ dTmax = 3.11 - 1.97 * VPG) /\
  (CWSI = (T_target - Ta - dTmin) / (dTmax - dTmin) /\
   ETa = (1 - CWSI) * ETc).
Proof. apply calc_CWSI_ETa_returned. Qed.

Lemma calc_CWSI_ETa_returns_only_if_witness :
  exists NDVI NDVI_scaled Fr eps T_target esat ea VPD VPG dTmin dTmax CWSI ETa,
    outcome (calc_CWSI_ETa 0.6 0.1 30 50 25 5)
    = Ok (NDVI, NDVI_scaled, Fr, eps, T_target, esat, ea, VPD, VPG, dTmin,
          dTmax, CWSI, ETa) /\
    0 <= Fr <= 1 /\ 0.93 <= eps <= 0.98 /\ 0 <= T_target /\ 0 < esat.
Proof.
  destruct (calc_CWSI_ETa_defined 0.6 0.1 30 50 25 5) as [o Ho];
    [lra | simpl; lra | lra | lra |].
  destruct o as [[[[[[[[[[[[NDVI NDVI_scaled] Fr] eps] T_target] esat] ea]
                       VPD] VPG] dTmin] dTmax] CWSI] ETa].
  exists NDVI, NDVI_scaled, Fr, eps, T_target, esat, ea, VPD, VPG, dTmin, dTmax,
         CWSI, ETa.
  split; [exact Ho |].
  exact (proj1 (proj2 (proj2
           (calc_CWSI_ETa_returns_only_if _ _ _ _ _ _ _ _ _ _ _ _ _ _ _ _ _ _ _
              Ho)))).
Defined.

(** X19: for bands that do not cancel, a sensor reading with
    [T_sensor^4 >= 3544], an air temperature above -237.3 and a relative
    humidity in [[0, 100]], [calc_CWSI_ETa] returns, and the returned
    bounds satisfy [dTmin <= 3.11 < dTmax]. *)
Theorem calc_CWSI_ETa_normal_inputs (Nir Red T_sensor RH Ta ETc : R) :
  Nir + Red <> 0 -> 3544 <= T_sensor ^ 4 -> Ta > -237.3 -> 0 <= RH <= 100 ->
  exists out,
    outcome (calc_CWSI_ETa Nir Red T_sensor RH Ta ETc) = Ok out /\
    out_dTmin out <= 3.11 < out_dTmax out.
Proof.
  intros HN HT HTa HRH.
  destruct (calc_CWSI_ETa_defined Nir Red T_sensor RH Ta ETc HN HT HTa HRH)
    as [o Ho].
  exists o. split; [exact Ho |].
  destruct o as [[[[[[[[[[[[NDVI NDVI_scaled] Fr] eps] T_target] esat] ea]
                       VPD] VPG] dTmin] dTmax] CWSI] ETa].
  apply calc_CWSI_ETa_returned in Ho.
  destruct Ho as (_ & _ & _ & _ & (He & Hea & HVPD & HVPG & Hmin & Hmax) & _).
  unfold out_dTmin, out_dTmax. subst.
  pose proof (vpd_nonneg Ta RH HRH). pose proof (tetens_shift_lt Ta HTa).
  lra.
Qed.

Lemma calc_CWSI_ETa_normal_inputs_witness :
  exists out,
    outcome (calc_CWSI_ETa 0.6 0.1 30 50 25 5) = Ok out /\
    out_dTmin out <= 3.11 < out_dTmax out.
Proof.
  apply (calc_CWSI_ETa_normal_inputs 0.6 0.1 30 50 25 5);
    [lra | simpl; lra | lra | lra].
Defined.

(** X20: [ETc] enters the last component only: with another [ETc] the
    pipeline returns the same first twelve values and
    [(1 - CWSI) * ETc] for the new [ETc]. *)
Theorem calc_CWSI_ETa_linear_in_ETc (Nir Red T_sensor RH Ta ETc ETc' : R)
  (NDVI NDVI_scaled Fr eps T_target esat ea VPD VPG dTmin dTmax CWSI ETa : R) :
  outcome (calc_CWSI_ETa Nir Red T_sensor RH Ta ETc)
  = Ok (NDVI, NDVI_scaled, Fr, eps, T_target, esat, ea, VPD, VPG, dTmin, dTmax,
        CWSI, ETa) ->
  ETa = (1 - CWSI) * ETc /\
  outcome (calc_CWSI_ETa Nir Red T_sensor RH Ta ETc')
  = Ok (NDVI, NDVI_scaled, Fr, eps, T_target, esat, ea, VPD, VPG, dTmin, dTmax,
        CWSI, (1 - CWSI) * ETc').
Proof.
  intros H. apply calc_CWSI_ETa_sound in H. cbv beta iota delta [staged] in H.
  destruct H as (H1 & H2 & H3 & H4 & H5 & H6 & H7 & H8 & H9 & H10 & H11
                 & H12 & H13).
  split.
  - apply (proj1 (outcome_ret _ _)) in H13. congruence.
  - apply calc_CWSI_ETa_complete. cbv beta iota delta [staged].
    repeat (split; [assumption |]). reflexivity.
Qed.

Lemma calc_CWSI_ETa_linear_in_ETc_witness :
  exists NDVI NDVI_scaled Fr eps T_target esat ea VPD VPG dTmin dTmax CWSI ETa,
    outcome (calc_CWSI_ETa 0.6 0.1 30 50 25 5)
    = Ok (NDVI, NDVI_scaled, Fr, eps, T_target, esat, ea, VPD, VPG, dTmin,
          dTmax, CWSI, ETa) /\
    ETa = (1 - CWSI) * 5 /\
    outcome (calc_CWSI_ETa 0.6 0.1 30 50 25 10)
    = Ok (NDVI, NDVI_scaled, Fr, eps, T_target, esat, ea, VPD, VPG, dTmin,
          dTmax, CWSI, (1 - CWSI) * 10).
Proof.
  destruct (calc_CWSI_ETa_defined 0.6 0.1 30 50 25 5) as [o Ho];
    [lra | simpl; lra | lra | lra |].
  destruct o as [[[[[[[[[[[[NDVI NDVI_scaled] Fr] eps] T_target] esat] ea]
                       VPD] VPG] dTmin] dTmax] CWSI] ETa].
  exists NDVI, NDVI_scaled, Fr, eps, T_target, esat, ea, VPD, VPG, dTmin, dTmax,
         CWSI, ETa.
  split; [exact Ho |].
  exact (calc_CWSI_ETa_linear_in_ETc _ _ _ _ _ _ 10 _ _ _ _ _ _ _ _ _ _ _ _ _
           Ho).
Defined.

(** * Further properties of the batch runner *)

(** ** Assigning a column and reading it back *)

Lemma getitem_replace_column (cols cols' : list (string * list R))
  (name col : string) (values : list R) (i : nat) :
  replace_column cols name values = Some cols' ->
  getitem (map (fun c => (fst c, nth i (snd c) 0)) cols') col
  = if String.eqb col name then ret (nth i values 0)
    else getitem (map (fun c => (fst c, nth i (snd c) 0)) cols) col.
Proof.
  revert cols'. induction cols as [| [k v] rest IH]; intros cols' H; simpl in H.
  - discriminate H.
  - destruct (String.eqb k name) eqn:Ekn.
    + injection H as <-. apply String.eqb_eq in Ekn. subst k. simpl.
      rewrite (String.eqb_sym name col).
      destruct (String.eqb col name); reflexivity.
    + destruct (replace_column rest name values) as [r' |] eqn:Er;
        [| discriminate H].
      injection H as <-. simpl. rewrite (IH r' eq_refl).
      destruct (String.eqb k col) eqn:Ekc; [| reflexivity].
      apply String.eqb_eq in Ekc. subst k.
      rewrite Ekn. reflexivity.
Qed.

Lemma replace_column_names (cols cols' : list (string * list R))
  (name : string) (values : list R) :
  replace_column cols name values = Some cols' ->
  map fst cols' = map fst cols /\ In name (map fst cols).
Proof.
  revert cols'. induction cols as [| [k v] rest IH]; intros cols' H; simpl in H.
  - discriminate H.
  - destruct (String.eqb k name) eqn:Ekn.
    + injection H as <-. apply String.eqb_eq in Ekn. simpl. auto.
    + destruct (replace_column rest name values) as [r' |] eqn:Er;
        [| discriminate H].
      injection H as <-. destruct (IH r' eq_refl) as [Hn Hin].
      simpl. rewrite Hn. auto.
Qed.

Lemma replace_column_lengths (cols cols' : list (string * list R))
  (name : string) (values : list R) (n : nat) :
  replace_column cols name values = Some cols' ->
  length values = n ->
  Forall (fun c => length (snd c) = n) cols ->
  Forall (fun c => length (snd c) = n) cols'.
Proof.
  revert cols'. induction cols as [| [k v] rest IH]; intros cols' H Hlen Hall;
    simpl in H.
  - discriminate H.
  - apply Forall_cons_iff in Hall. destruct Hall as [Hv Hrest].
    destruct (String.eqb k name).
    + injection H as <-. apply Forall_cons; assumption.
    + destruct (replace_column rest name values) as [r' |] eqn:Er;
        [| discriminate H].
      injection H as <-. apply Forall_cons; [exact Hv |].
      apply IH; [reflexivity | exact Hlen | exact Hrest].
Qed.

Lemma replace_column_none (cols : list (string * list R)) (name : string)
  (values : list R) :
  replace_column cols name values = None -> ~ In name (map fst cols).
Proof.
  induction cols as [| [k v] rest IH]; intros H; simpl in *.
  - intros [].
  - destruct (String.eqb k name) eqn:Ekn; [discriminate H |].
    destruct (replace_column rest name values); [discriminate H |].
    apply String.eqb_neq in Ekn. intros [Hk | Hin]; [contradiction |].
    exact (IH eq_refl Hin).
Qed.

Lemma getitem_app_last (row : Series) (name col : string) (v : R) :
  ~ In name (map fst row) ->
  getitem (row ++ [(name, v)]) col
  = if String.eqb col name then ret v else getitem row col.
Proof.
  induction row as [| [k w] rest IH]; intros Hnot; simpl.
  - rewrite (String.eqb_sym name col).
    destruct (String.eqb col name); reflexivity.
  - destruct (String.eqb k col) eqn:Ekc.
    + apply String.eqb_eq in Ekc. subst k.
      destruct (String.eqb col name) eqn:Ecn; [| reflexivity].
      apply String.eqb_eq in Ecn. subst col.
      exfalso. apply Hnot. left. reflexivity.
    + apply IH. intros Hin. apply Hnot. right. exact Hin.
Qed.

(** What one assignment does, whether the column is new or not. *)
Lemma loc_set_spec (df : DataFrame) (name : string) (values : list R) :
  length values = nrows df ->
  exists out,
    loc_set df name values = ret out /\
    nrows out = nrows df /\
    (forall i col,
        getitem (row_at out i) col
        = if String.eqb col name then ret (nth i values 0)
          else getitem (row_at df i) col) /\
    (In name (names df) -> names out = names df) /\
    (~ In name (names df) -> columns out = columns df ++ [(name, values)]) /\
    (well_formed df -> well_formed out).
Proof.
  intros Hlen. unfold loc_set. rewrite Hlen, Nat.eqb_refl.
  destruct (replace_column (columns df) name values) as [cols' |] eqn:Er.
  - exists (mkDataFrame (nrows df) cols').
    destruct (replace_column_names _ _ _ _ Er) as [Hn Hin].
    split; [reflexivity |]. split; [reflexivity |]. split; [| split; [| split]].
    + intros i col. unfold row_at. simpl.
      apply getitem_replace_column. exact Er.
    + intros _. unfold names. simpl. exact Hn.
    + intros Hnot. contradiction.
    + intros [Hnd Hall]. split.
      * unfold names in *. simpl. rewrite Hn. exact Hnd.
      * simpl. apply (replace_column_lengths _ _ _ _ _ Er Hlen Hall).
  - exists (mkDataFrame (nrows df) (columns df ++ [(name, values)])).
    pose proof (replace_column_none _ _ _ Er) as Hnot.
    split; [reflexivity |]. split; [reflexivity |]. split; [| split; [| split]].
    + intros i col. unfold row_at. simpl. rewrite map_app. simpl.
      apply getitem_app_last. rewrite map_map. simpl. exact Hnot.
    + intros Hin. contradiction.
    + intros _. reflexivity.
    + intros [Hnd Hall]. split.
      * unfold names in *. simpl. rewrite map_app. simpl.
        apply NoDup_app; [exact Hnd | repeat constructor; intros [] |].
        intros a Ha [<- | []]. contradiction.
      * simpl. apply Forall_app. split; [exact Hall |].
        repeat constructor. exact Hlen.
Qed.

(** X21: [df.loc[:, name] = values] with a list as long as the table
    returns a table of the same height in which every row reads
    [values] under [name] and reads every other name as before; an
    existing name keeps the column names as they are, a new one is added
    as the last column, and a well-formed table stays well-formed.  A
    list of another length is refused. *)
Theorem loc_set_then_getitem (df : DataFrame) (name : string) (values : list R) :
  (length values <> nrows df -> loc_set df name values = raise ValueError) /\
  (length values = nrows df ->
   exists out,
     loc_set df name values = ret out /\
     nrows out = nrows df /\
     (forall i, getitem (row_at out i) name = ret (nth i values 0)) /\
     (forall i col, col <> name ->
                    getitem (row_at out i) col = getitem (row_at df i) col) /\
     (In name (names df) -> names out = names df) /\
     (~ In name (names df) -> columns out = columns df ++ [(name, values)]) /\
     (well_formed df -> well_formed out)).
Proof.
  split.
  - intros Hne. unfold loc_set.
    destruct (Nat.eqb (length values) (nrows df)) eqn:E; [| reflexivity].
    apply Nat.eqb_eq in E. contradiction.
  - intros Hlen.
    destruct (loc_set_spec df name values Hlen)
      as (out & Hout & Hn & Hget & Hin & Hnew & Hwf).
    exists out. split; [exact Hout |]. split; [exact Hn |].
    split; [| split; [| split; [exact Hin | split; [exact Hnew | exact Hwf]]]].
    + intros i. rewrite Hget, String.eqb_refl. reflexivity.
    + intros i col Hne. rewrite Hget.
      apply String.eqb_neq in Hne. rewrite Hne. reflexivity.
Qed.

(** ** The eleven assignments, whatever the input columns are *)

Lemma assign_results_unfold (df : DataFrame) (l : lists) :
  assign_results df l = assign_all df (result_columns l).
Proof. reflexivity. Qed.

Lemma assign_all_spec (cols : list (string * list R)) :
  forall df,
    NoDup (map fst cols) ->
    Forall (fun c => length (snd c) = nrows df) cols ->
    exists out,
      assign_all df cols = ret out /\
      nrows out = nrows df /\
      (forall i name values,
          In (name, values) cols ->
          getitem (row_at out i) name = ret (nth i values 0)) /\
      (forall i col,
          ~ In col (map fst cols) ->
          getitem (row_at out i) col = getitem (row_at df i) col) /\
      (well_formed df -> well_formed out).
Proof.
  induction cols as [| [n v] rest IH]; intros df Hnd Hall.
  - exists df. simpl.
    split; [reflexivity |]. split; [reflexivity |].
    split; [intros i name values [] |].
    split; [reflexivity | tauto].
  - simpl in Hnd. apply NoDup_cons_iff in Hnd. destruct Hnd as [Hn Hnd].
    apply Forall_cons_iff in Hall. destruct Hall as [Hv Hall]. simpl in Hv.
    destruct (loc_set_spec df n v Hv)
      as (df1 & Hset & Hrows1 & Hget1 & _ & _ & Hwf1).
    rewrite <- Hrows1 in Hall.
    destruct (IH df1 Hnd Hall) as (out & Hout & Hrows & Hin & Hother & Hwf).
    exists out. simpl. rewrite Hset, bind_ret_l.
    split; [exact Hout |]. split; [congruence |].
    split; [| split].
    + intros i name values [Heq | Hrest].
      * injection Heq as <- <-.
        rewrite (Hother i n Hn), Hget1, String.eqb_refl. reflexivity.
      * apply Hin. exact Hrest.
    + intros i col Hnot.
      assert (Hne : col <> n) by (intros ->; apply Hnot; left; reflexivity).
      assert (Hnr : ~ In col (map fst rest))
        by (intros H; apply Hnot; right; exact H).
      rewrite (Hother i col Hnr), Hget1.
      apply String.eqb_neq in Hne. rewrite Hne. reflexivity.
    + intros H. apply Hwf, Hwf1, H.
Qed.

Lemma result_names_NoDup : NoDup result_names.
Proof.
  unfold result_names.
  repeat (apply NoDup_cons; [simpl; intuition discriminate |]).
  apply NoDup_nil.
Qed.

(** X22: whatever columns the input has, when every row is processed
    without an exception the run writes a table of the same height in
    which row [i] reads, under each result name, the value
    [calc_CWSI_ETa] returned for the cells of input row [i], and under
    every other name what the input row reads; a well-formed input gives
    a well-formed output. *)
Theorem run_results_by_name (df : DataFrame) (cn : colnames) :
  (forall i, (i < nrows df)%nat ->
             exists o, outcome (process_row cn (row_at df i)) = Ok o) ->
  exists out,
    outcome (run_CWSI_ETa_model df cn) = Ok out /\
    nrows out = nrows df /\
    (well_formed df -> well_formed out) /\
    forall i, (i < nrows df)%nat ->
      exists o,
        outcome (process_row cn (row_at df i)) = Ok o /\
        (forall name v, In (name, v) (result_cells o) ->
                        getitem (row_at out i) name = ret v) /\
        (forall col, ~ In col result_names ->
                     getitem (row_at out i) col = getitem (row_at df i) col).
Proof.
  intros Hrows.
  set (outs := map (fun row => returned (process_row cn row)) (iterrows df)).
  set (l := fold_left append_outputs outs empty_lists).
  destruct (assign_all_spec (result_columns l) df)
    as (out & Hout & Hn & Hin & Hother & Hwf).
  { rewrite result_columns_names. apply result_names_NoDup. }
  { apply loop_lists_lengths. }
  exists out. split; [| split; [exact Hn | split; [exact Hwf |]]].
  - rewrite run_CWSI_ETa_model_unfold.
    apply outcome_bind_Ok. exists l. split.
    + apply loop_defined. intros row Hrow. unfold iterrows in Hrow.
      apply in_map_iff in Hrow. destruct Hrow as [i [<- Hi]].
      apply in_seq in Hi. apply Hrows. lia.
    + rewrite assign_results_unfold, Hout. reflexivity.
  - intros i Hi. destruct (Hrows i Hi) as [o Ho].
    exists o. split; [exact Ho |]. split.
    + intros name v Hcell.
      assert (Ho' : nth i outs zero_outputs = o).
      { unfold outs, iterrows. rewrite map_map.
        rewrite nth_map_seq by exact Hi.
        apply returned_of_outcome. exact Ho. }
      rewrite <- Ho', <- (result_row outs i) in Hcell.
      apply in_map_iff in Hcell. destruct Hcell as [[name' values] [Heq Hc]].
      simpl in Heq. injection Heq as <- <-.
      apply (Hin i name' values Hc).
    + intros col Hcol. apply Hother.
      rewrite result_columns_names. exact Hcol.
Qed.

Lemma run_results_by_name_witness :
  let df := mkDataFrame 1
              [("R_nir", [0.6]); ("R_red", [0.1]); ("T_target", [30]);
               ("RH", [50]); ("Air Temp", [25]); ("ETc", [5]);
               ("NDVI", [0])]%string in
  exists out,
    outcome (run_CWSI_ETa_model df default_colnames) = Ok out /\
    nrows out = nrows df /\
    (well_formed df -> well_formed out) /\
    forall i, (i < nrows df)%nat ->
      exists o,
        outcome (process_row default_colnames (row_at df i)) = Ok o /\
        (forall name v, In (name, v) (result_cells o) ->
                        getitem (row_at out i) name = ret v) /\
        (forall col, ~ In col result_names ->
                     getitem (row_at out i) col = getitem (row_at df i) col).
Proof.
  cbv zeta. apply run_results_by_name.
  intros i Hi. simpl in Hi. assert (i = 0%nat) as -> by lia.
  rewrite (process_row_cells _ _ 0.6 0.1 30 50 25 5) by reflexivity.
  apply calc_CWSI_ETa_defined; [lra | simpl; lra | lra | lra].
Defined.

(** ** Which missing column is reported *)

Ltac next_required Hreq Hpre Hmiss pre row :=
  let Hp := fresh "Hp" in
  let Hc := fresh "Hc" in
  let v := fresh "v" in
  let Hv := fresh "Hv" in
  let Hpre' := fresh "Hpre" in
  destruct pre as [| ? pre]; simpl in Hreq;
  [ injection Hreq as Hc _; subst;
    rewrite (getitem_absent _ _ Hmiss); reflexivity
  | injection Hreq as Hp Hreq;
    destruct (getitem_present _ _ (Hpre _ (or_introl eq_refl))) as [v Hv];
    rewrite <- Hp in Hv; rewrite Hv, bind_ret_l;
    assert (Hpre' : forall q, In q pre -> In q (map fst row))
      by (intros q Hq; apply Hpre; right; exact Hq);
    clear Hpre; rename Hpre' into Hpre ].

(** X23: the six arguments are read in the order Nir, Red, T_sensor, RH,
    Ta, ETc: the [KeyError] of a row names the first required column, in
    that order, that the row does not have, and the pipeline is not
    entered. *)
Theorem process_row_reports_first_missing (cn : colnames) (row : Series)
  (pre post : list string) (c : string) :
  required cn = pre ++ c :: post ->
  (forall p, In p pre -> In p (map fst row)) ->
  ~ In c (map fst row) ->
  process_row cn row = raise (KeyError c).
Proof.
  intros Hreq Hpre Hmiss. unfold required in Hreq. unfold process_row.
  next_required Hreq Hpre Hmiss pre row.
  next_required Hreq Hpre Hmiss pre row.
  next_required Hreq Hpre Hmiss pre row.
  next_required Hreq Hpre Hmiss pre row.
  next_required Hreq Hpre Hmiss pre row.
  next_required Hreq Hpre Hmiss pre row.
  destruct pre; discriminate Hreq.
Qed.

Lemma process_row_reports_first_missing_witness :
  process_row default_colnames
    [("R_nir", 0.6); ("R_red", 0.1); ("T_target", 30)]%string
  = raise (KeyError "RH").
Proof.
  apply (process_row_reports_first_missing default_colnames _
           ["R_nir"; "R_red"; "T_target"]%string ["Air Temp"; "ETc"]%string
           "RH"%string).
  - reflexivity.
  - simpl. tauto.
  - simpl. intuition discriminate.
Defined.

(** ** The warnings of a run *)

Lemma getitem_quiet (row : Series) (col : string) :
  warnings_of (getitem row col) = [].
Proof.
  induction row as [| [k v] rest IH]; simpl.
  - reflexivity.
  - destruct (String.eqb k col); [reflexivity | exact IH].
Qed.

Lemma loc_set_quiet (df : DataFrame) (name : string) (values : list R) :
  warnings_of (loc_set df name values) = [].
Proof.
  unfold loc_set. destruct (Nat.eqb (length values) (nrows df));
    [| reflexivity].
  destruct (replace_column (columns df) name values); reflexivity.
Qed.

Lemma assign_all_quiet (cols : list (string * list R)) :
  forall df, warnings_of (assign_all df cols) = [].
Proof.
  induction cols as [| [n v] rest IH]; intros df; simpl.
  - reflexivity.
  - apply bind_quiet; [apply loc_set_quiet | intros df'; apply IH].
Qed.

Lemma calc_CWSI_ETa_one_warning (Nir Red T_sensor RH Ta ETc : R) :
  (length (warnings_of (calc_CWSI_ETa Nir Red T_sensor RH Ta ETc)) <= 1)%nat.
Proof.
  rewrite calc_CWSI_ETa_warnings_eq.
  destruct (Req_dec_T (Nir + Red) 0); [simpl; lia |].
  rewrite fractional_veg_cover_eq. destruct (Rgt_dec _ 1); simpl; lia.
Qed.

Ltac read_cell :=
  rewrite warnings_of_bind, getitem_quiet; simpl;
  destruct (outcome (getitem _ _)); [| simpl; lia].

Lemma process_row_one_warning (cn : colnames) (row : Series) :
  (length (warnings_of (process_row cn row)) <= 1)%nat.
Proof.
  unfold process_row.
  read_cell. read_cell. read_cell. read_cell. read_cell. read_cell.
  apply calc_CWSI_ETa_one_warning.
Qed.

Lemma loop_warnings_bound (cn : colnames) (rows : list Series) :
  forall l, (length (warnings_of (loop cn rows l)) <= length rows)%nat.
Proof.
  induction rows as [| row rest IH]; intros l; simpl.
  - lia.
  - rewrite warnings_of_bind, length_app.
    pose proof (process_row_one_warning cn row) as H1.
    destruct (outcome (process_row cn row)) as [o | e].
    + specialize (IH (append_outputs l o)). lia.
    + simpl. lia.
Qed.

Lemma loop_warnings_in_order (cn : colnames) (rows : list Series) :
  forall l,
    (forall row, In row rows -> exists o, outcome (process_row cn row) = Ok o) ->
    warnings_of (loop cn rows l)
    = flat_map (fun row => warnings_of (process_row cn row)) rows.
Proof.
  induction rows as [| row rest IH]; intros l Hrows; simpl.
  - reflexivity.
  - rewrite warnings_of_bind.
    destruct (Hrows row (or_introl eq_refl)) as [o Ho]. rewrite Ho.
    f_equal. apply IH. intros r Hr. apply Hrows. right. exact Hr.
Qed.

(** X24: a run emits at most one warning per row of the table, and when
    every row is processed without an exception its warnings are those
    of the rows, in row order; the assignments and the lookups emit
    none. *)
Theorem run_warnings_per_row (df : DataFrame) (cn : colnames) :
  (length (warnings_of (run_CWSI_ETa_model df cn)) <= nrows df)%nat /\
  ((forall i, (i < nrows df)%nat ->
              exists o, outcome (process_row cn (row_at df i)) = Ok o) ->
   warnings_of (run_CWSI_ETa_model df cn)
   = flat_map (fun i => warnings_of (process_row cn (row_at df i)))
       (seq 0 (nrows df))).
Proof.
  rewrite run_CWSI_ETa_model_unfold, warnings_of_bind.
  assert (Hq : match outcome (loop cn (iterrows df) empty_lists) with
               | Ok a => warnings_of (assign_results df a)
               | Err _ => []
               end = []).
  { destruct (outcome (loop cn (iterrows df) empty_lists)); [| reflexivity].
    rewrite assign_results_unfold. apply assign_all_quiet. }
  rewrite Hq, app_nil_r. split.
  - pose proof (loop_warnings_bound cn (iterrows df) empty_lists) as H.
    unfold iterrows in H at 2. rewrite length_map, length_seq in H. exact H.
  - intros Hrows. rewrite loop_warnings_in_order.
    + unfold iterrows. rewrite flat_map_concat_map, map_map.
      rewrite <- flat_map_concat_map. reflexivity.
    + intros row Hrow. unfold iterrows in Hrow.
      apply in_map_iff in Hrow. destruct Hrow as [i [<- Hi]].
      apply in_seq in Hi. apply Hrows. lia.
Qed.
